(** * InstructLab command layer ([src/instructlab/lab.py])

    A shallow embedding of the [init] and [diff] commands.  Both commands
    are straight-line orchestration of external collaborators (the file
    system, the click prompt/echo layer, GitPython, the [config] and
    [utils] modules).  The commands are written in a small monad that
    threads the trace of external calls made so far and carries Python's
    three ways of leaving a block: falling through with a value, [return],
    and a raised exception.  The environment answers each external call as
    a function of the call's arguments and of the trace so far. *)

From Stdlib Require Import String Ascii List ZArith Bool DecimalString.
From ExtLib Require Import Structures.Monad.
Import ListNotations.
Import MonadNotation.
Local Open Scope monad_scope.
Local Open Scope string_scope.
Local Open Scope Z_scope.

Set Implicit Arguments.

(* ------------------------------------------------------------------ *)
(** ** Python values used by the commands *)

(** Argument of [SystemExit(...)]: an integer status or any other object,
    of which only [str(obj)] is observed. *)
Inductive exit_arg : Type :=
| ExitCode (status : Z)
| ExitObj (text : string).

(** Exceptions, by the classes the handlers of [lab.py] tell apart.  A
    constructor stands for its class and all its subclasses, as in an
    [except] clause; the string is [str(exc)]. *)
Inductive exn : Type :=
| SystemExit (arg : exit_arg)
| ClickExit (exit_code : Z)              (* click.exceptions.Exit *)
| GitError (msg : string)                (* git.GitError *)
| YAMLError (msg : string)               (* yaml.YAMLError *)
| FileNotFoundError (msg : string)
| AttributeError (msg : string)
| OtherException (cls msg : string).     (* click.Abort, OSError, ... *)

Definition str_Z (n : Z) : string := NilZero.string_of_int (Z.to_int n).

(** [str(exc)], as interpolated by the f-strings. *)
Definition str_exn (e : exn) : string :=
  match e with
  | SystemExit (ExitCode n) => str_Z n
  | SystemExit (ExitObj s) => s
  | ClickExit n => str_Z n
  | GitError m | YAMLError m | FileNotFoundError m | AttributeError m => m
  | OtherException _ m => m
  end.

(** The [depth] keyword of [Repo.clone_from]: [False] or an integer. *)
Inductive py_depth : Type :=
| DepthFalse
| DepthInt (n : Z).

(** Python truthiness of an optional string option value ([None] and the
    empty string are falsy). *)
Definition py_not (o : option string) : bool :=
  match o with
  | None => true
  | Some s => match s with EmptyString => true | String _ _ => false end
  end.

Definition str_of (o : option string) : string :=
  match o with Some s => s | None => "" end.

(* ------------------------------------------------------------------ *)
(** ** Configuration ([config] module, declarations only) *)

(** Modelled from the spec: the configuration record of the [config]
    module, "a nested record with at least chat.model, generate.model,
    generate.taxonomy_path, generate.taxonomy_base, serve.model_path".
    The remaining settings of each section are kept as an opaque list. *)
Record chat_section : Type := mk_chat {
  chat_model : string;
  chat_rest : list (string * string)
}.

Record generate_section : Type := mk_generate {
  generate_model : string;
  generate_taxonomy_path : string;
  generate_taxonomy_base : string;
  generate_rest : list (string * string)
}.

Record serve_section : Type := mk_serve {
  serve_model_path : string;
  serve_rest : list (string * string)
}.

Record Config : Type := mk_Config {
  chat : chat_section;
  generate : generate_section;
  serve : serve_section
}.

(** Attribute assignments [cfg.<section>.<field> = v]. *)
Definition set_chat_model (v : string) (c : Config) : Config :=
  mk_Config (mk_chat v (chat_rest (chat c))) (generate c) (serve c).

Definition set_generate_model (v : string) (c : Config) : Config :=
  let g := generate c in
  mk_Config (chat c)
    (mk_generate v (generate_taxonomy_path g) (generate_taxonomy_base g)
       (generate_rest g))
    (serve c).

Definition set_serve_model_path (v : string) (c : Config) : Config :=
  mk_Config (chat c) (generate c) (mk_serve v (serve_rest (serve c))).

Definition set_generate_taxonomy_path (v : string) (c : Config) : Config :=
  let g := generate c in
  mk_Config (chat c)
    (mk_generate (generate_model g) v (generate_taxonomy_base g)
       (generate_rest g))
    (serve c).

Definition set_generate_taxonomy_base (v : string) (c : Config) : Config :=
  let g := generate c in
  mk_Config (chat c)
    (mk_generate (generate_model g) (generate_taxonomy_path g) v
       (generate_rest g))
    (serve c).

(** A logger object, identified by its name. *)
Definition Logger : Type := string.

(** [ctx.obj]: the object [config.init_config] stores in the click
    context; it is [None] when no configuration was loaded. *)
Record Lab : Type := mk_Lab {
  config : Config;
  logger : Logger
}.

(* ------------------------------------------------------------------ *)
(** ** External calls and their trace *)

(** One event per external call, with its arguments and, where the call
    answers, its answer ([inl] is a raised exception). *)
Inductive Event : Type :=
| EvExists (path : string) (r : bool)
| EvIsFile (path : string) (r : bool)
| EvListdir (path : string) (r : exn + list string)
| EvConfirm (text : string) (r : exn + bool)
| EvPrompt (text default : string) (r : exn + string)
| EvEcho (message : string)
| EvSecho (message : string) (fg : option string)
| EvCloneFrom (url to_path branch : string) (recurse_submodules : bool)
    (depth : py_depth) (r : exn + unit)
| EvWriteConfig (cfg : Config) (r : exn + unit)
| EvGetLogger (name : string)
| EvGetTaxonomyDiff (repo base : string) (r : exn + list string)
| EvReadTaxonomy (lg : Logger) (taxonomy taxonomy_base : string)
    (yaml_rules : option string) (r : exn + unit).

Definition Trace : Type := list Event.

(** The environment of one invocation.  The first four fields are pure:
    two members of the [config] module, [utils.expand_path] and
    [os.path.dirname].  The others answer a call from the trace so far
    (the file system and the user may answer differently over time). *)
Record World : Type := mk_World {
  DEFAULT_CONFIG : string;
  get_default_config : Config;
  expand_path : string -> string;
  dirname : string -> string;
  os_path_exists : Trace -> string -> bool;
  os_path_isfile : Trace -> string -> bool;
  os_listdir : Trace -> string -> exn + list string;
  click_confirm : Trace -> string -> exn + bool;
  click_prompt : Trace -> string -> string -> exn + string;
  Repo_clone_from :
    Trace -> string -> string -> string -> bool -> py_depth -> exn + unit;
  config_write_config : Trace -> Config -> exn + unit;
  get_taxonomy_diff : Trace -> string -> string -> exn + list string;
  read_taxonomy :
    Trace -> Logger -> string -> string -> option string -> exn + unit
}.

(* ------------------------------------------------------------------ *)
(** ** The command monad *)

(** How a block of statements ends. *)
Inductive Res (A : Type) : Type :=
| Val (a : A)          (* fell through with a value *)
| Returned             (* executed [return] *)
| Raised (e : exn).    (* raised [e] *)

Arguments Returned {A}.
Arguments Raised {A} e.

Definition M (A : Type) : Type := World -> Trace -> Trace * Res A.

Definition M_ret {A : Type} (a : A) : M A := fun _ t => (t, Val a).

Definition M_bind {A B : Type} (m : M A) (k : A -> M B) : M B :=
  fun w t =>
    match m w t with
    | (t', Val a) => k a w t'
    | (t', Returned) => (t', Returned)
    | (t', Raised e) => (t', Raised e)
    end.

#[global] Instance Monad_M : Monad M :=
  {| ret := @M_ret; bind := @M_bind |}.

Definition raise {A : Type} (e : exn) : M A := fun _ t => (t, Raised e).

(** The [return] statement. *)
Definition py_return {A : Type} : M A := fun _ t => (t, Returned).

(** [try: body except <classes>: handler]: [handles e] selects the
    exceptions of the listed classes. *)
Definition try_except {A : Type} (body : M A) (handles : exn -> bool)
    (handler : exn -> M A) : M A :=
  fun w t =>
    match body w t with
    | (t', Raised e) => if handles e then handler e w t' else (t', Raised e)
    | r => r
    end.

(** A function body: [return] and falling off the end both return. *)
Definition py_def (body : M unit) : M unit :=
  fun w t =>
    match body w t with
    | (t', Returned) => (t', Val tt)
    | r => r
    end.

(** An external call that answers: the answer is recorded with the call. *)
Definition call {A : Type} (ask : World -> Trace -> exn + A)
    (ev : exn + A -> Event) : M A :=
  fun w t =>
    let r := ask w t in
    (t ++ [ev r],
     match r with inl e => Raised e | inr a => Val a end)%list.

(** An external call that cannot raise. *)
Definition call_total {A : Type} (ask : World -> Trace -> A)
    (ev : A -> Event) : M A :=
  fun w t => let r := ask w t in ((t ++ [ev r])%list, Val r).

Definition emit (ev : Event) : M unit := fun _ t => ((t ++ [ev])%list, Val tt).

(** Reading a pure member of the environment. *)
Definition env {A : Type} (f : World -> A) : M A := fun w t => (t, Val (f w)).

Fixpoint for_each {A : Type} (l : list A) (body : A -> M unit) : M unit :=
  match l with
  | [] => ret tt
  | x :: l' => body x ;; for_each l' body
  end.

Definition run {A : Type} (m : M A) (w : World) : Trace * Res A := m w [].

(** *** The collaborators as monadic calls *)

Definition exists_ (p : string) : M bool :=
  call_total (fun w t => os_path_exists w t p) (EvExists p).

Definition isfile (p : string) : M bool :=
  call_total (fun w t => os_path_isfile w t p) (EvIsFile p).

Definition listdir (p : string) : M (list string) :=
  call (fun w t => os_listdir w t p) (EvListdir p).

Definition confirm (text : string) : M bool :=
  call (fun w t => click_confirm w t text) (EvConfirm text).

Definition prompt (text default : string) : M string :=
  call (fun w t => click_prompt w t text default) (EvPrompt text default).

Definition echo (message : string) : M unit := emit (EvEcho message).

Definition secho (message : string) (fg : option string) : M unit :=
  emit (EvSecho message fg).

Definition clone_from (url to_path branch : string) (recurse_submodules : bool)
    (depth : py_depth) : M unit :=
  call (fun w t => Repo_clone_from w t url to_path branch recurse_submodules depth)
       (EvCloneFrom url to_path branch recurse_submodules depth).

Definition write_config (cfg : Config) : M unit :=
  call (fun w t => config_write_config w t cfg) (EvWriteConfig cfg).

Definition getLogger (name : string) : M Logger :=
  emit (EvGetLogger name) ;; ret name.

Definition utils_get_taxonomy_diff (repo base : string) : M (list string) :=
  call (fun w t => get_taxonomy_diff w t repo base) (EvGetTaxonomyDiff repo base).

Definition utils_read_taxonomy (lg : Logger) (taxonomy taxonomy_base : string)
    (yaml_rules : option string) : M unit :=
  call (fun w t => read_taxonomy w t lg taxonomy taxonomy_base yaml_rules)
       (EvReadTaxonomy lg taxonomy taxonomy_base yaml_rules).

(** Attribute access [ctx.obj.<attr>]: on [None] it raises. *)
Definition NoneType_has_no (attr : string) : exn :=
  AttributeError ("'NoneType' object has no attribute '" ++ attr ++ "'").

Definition obj_config (ctx_obj : option Lab) : M Config :=
  match ctx_obj with
  | Some lab => ret (config lab)
  | None => raise (NoneType_has_no "config")
  end.

Definition obj_logger (ctx_obj : option Lab) : M Logger :=
  match ctx_obj with
  | Some lab => ret (logger lab)
  | None => raise (NoneType_has_no "logger")
  end.

(* ------------------------------------------------------------------ *)
(** ** [diff] (lab.py, lines 209-255) *)

Definition module_name : string := "instructlab.lab".   (* __name__ *)

Definition is_SystemExit_or_GitError (e : exn) : bool :=
  match e with SystemExit _ | GitError _ => true | _ => false end.

Definition is_SystemExit_or_YAMLError (e : exn) : bool :=
  match e with SystemExit _ | YAMLError _ => true | _ => false end.

Definition reading_failed (e : exn) : string :=
  "Reading taxonomy failed with the following error: " ++ str_exn e.

Definition taxonomy_is_valid (taxonomy_path : string) : string :=
  "Taxonomy in /" ++ taxonomy_path ++ "/ is valid :)".

Definition diff (ctx_obj : option Lab)
    (taxonomy_path taxonomy_base yaml_rules : option string) (quiet : bool)
  : M unit :=
  py_def (
    taxonomy_base <-
      (if py_not taxonomy_base
       then cfg <- obj_config ctx_obj ;; ret (generate_taxonomy_base (generate cfg))
       else ret (str_of taxonomy_base)) ;;
    taxonomy_path <-
      (if py_not taxonomy_path
       then cfg <- obj_config ctx_obj ;; ret (generate_taxonomy_path (generate cfg))
       else ret (str_of taxonomy_path)) ;;
    logger <-
      (match ctx_obj with
       | None => getLogger module_name
       | Some _ => obj_logger ctx_obj
       end) ;;
    (if negb quiet then
       is_file <- isfile taxonomy_path ;;
       if is_file then
         echo taxonomy_path
       else
         updated_taxonomy_files <-
           try_except
             (utils_get_taxonomy_diff taxonomy_path taxonomy_base)
             is_SystemExit_or_GitError
             (fun exc =>
                secho (reading_failed exc) (Some "red") ;;
                raise (SystemExit (ExitCode 1))) ;;
         for_each updated_taxonomy_files (fun f => echo f)
     else ret tt) ;;
    try_except
      (utils_read_taxonomy logger taxonomy_path taxonomy_base yaml_rules)
      is_SystemExit_or_YAMLError
      (fun exc =>
         (if negb quiet then secho (reading_failed exc) (Some "red")
          else ret tt) ;;
         raise (SystemExit (ExitCode 1))) ;;
    if negb quiet then secho (taxonomy_is_valid taxonomy_path) (Some "green")
    else ret tt).

(* ------------------------------------------------------------------ *)
(** ** [init] (lab.py, lines 109-184) *)

Definition is_FileNotFoundError (e : exn) : bool :=
  match e with FileNotFoundError _ => true | _ => false end.

Definition is_GitError (e : exn) : bool :=
  match e with GitError _ => true | _ => false end.

Definition found_config (default_config : string) : string :=
  "Found " ++ default_config
  ++ " in the current directory, do you still want to continue?".

Definition welcome : string :=
  "Welcome to InstructLab ilab. This guide will help you to setup your environment.".

Definition please_provide : string :=
  "Please provide the following values to initiate the environment [press Enter for defaults]:".

Definition should_i_clone (taxonomy_path repository : string) : string :=
  "`" ++ taxonomy_path ++ "` seems to not exist or is empty. Should I clone "
  ++ repository ++ " for you?".

Definition cloning (repository : string) : string :=
  "Cloning " ++ repository ++ "...".

Definition failed_to_clone (e : exn) : string :=
  "Failed to clone taxonomy repo: " ++ str_exn e.

Definition please_clone_manually (repository : string) : string :=
  "Please make sure to manually run `git clone " ++ repository ++ "`".

Definition generating (default_config : string) : string :=
  "Generating `" ++ default_config ++ "` in the current directory...".

Definition completed : string :=
  "Initialization completed successfully, you're ready to start using `ilab`. Enjoy!".

Definition init (interactive : bool)
    (model_path taxonomy_path taxonomy_base repository : string)
    (min_taxonomy : bool) : M unit :=
  py_def (
    let clone_taxonomy_repo := true in
    taxonomy_path <-
      (if interactive then
         default_config <- env DEFAULT_CONFIG ;;
         found <- exists_ default_config ;;
         (if found then
            overwrite <- confirm (found_config default_config) ;;
            if negb overwrite then py_return else ret tt
          else ret tt) ;;
         echo welcome ;;
         echo please_provide ;;
         answer <- prompt "Path to taxonomy repo" taxonomy_path ;;
         expand <- env expand_path ;;
         ret (expand answer)
       else ret taxonomy_path) ;;
    taxonomy_contents <-
      try_except (listdir taxonomy_path) is_FileNotFoundError
        (fun _ => ret []) ;;
    clone_taxonomy_repo <-
      (match taxonomy_contents with
       | _ :: _ => ret false
       | [] =>
           if interactive
           then confirm (should_i_clone taxonomy_path repository)
           else ret clone_taxonomy_repo
       end) ;;
    (* clone taxonomy repo if it needs to be cloned *)
    (if clone_taxonomy_repo then
       echo (cloning repository) ;;
       let clone_depth := if negb min_taxonomy then DepthFalse else DepthInt 1 in
       try_except
         (clone_from repository taxonomy_path "main" true clone_depth)
         is_GitError
         (fun exc =>
            secho (failed_to_clone exc) (Some "red") ;;
            secho (please_clone_manually repository) None ;;
            raise (ClickExit 1))
     else ret tt) ;;
    (* check if models dir exists, and if so ask for which model to use *)
    dirname_ <- env dirname ;;
    let models_dir := dirname_ model_path in
    model_path <-
      (if interactive then
         models_dir_exists <- exists_ models_dir ;;
         if models_dir_exists then
           answer <- prompt "Path to your model" model_path ;;
           expand <- env expand_path ;;
           ret (expand answer)
         else ret model_path
       else ret model_path) ;;
    default_config <- env DEFAULT_CONFIG ;;
    echo (generating default_config) ;;
    cfg <- env get_default_config ;;
    let cfg := set_chat_model model_path cfg in
    let cfg := set_generate_model model_path cfg in
    let cfg := set_serve_model_path model_path cfg in
    let cfg := set_generate_taxonomy_path taxonomy_path cfg in
    let cfg := set_generate_taxonomy_base taxonomy_base cfg in
    write_config cfg ;;
    echo completed).

(* ------------------------------------------------------------------ *)
(** ** Observations on a finished invocation *)

(** What the command's own [click.echo]/[click.secho] calls wrote to
    standard output. *)
Definition stdout (t : Trace) : list string :=
  flat_map (fun ev =>
    match ev with
    | EvEcho s => [s]
    | EvSecho s _ => [s]
    | _ => []
    end) t.

(** The keyword arguments of one [Repo.clone_from] call. *)
Record clone_request : Type := mk_clone {
  clone_url : string;
  clone_to_path : string;
  clone_branch : string;
  clone_recurse_submodules : bool;
  clone_depth : py_depth
}.

Definition clone_calls (t : Trace) : list clone_request :=
  flat_map (fun ev =>
    match ev with
    | EvCloneFrom u p b r d _ => [mk_clone u p b r d]
    | _ => []
    end) t.

Definition clone_results (t : Trace) : list (exn + unit) :=
  flat_map (fun ev =>
    match ev with EvCloneFrom _ _ _ _ _ r => [r] | _ => [] end) t.

Definition listdir_results (t : Trace) : list (string * (exn + list string)) :=
  flat_map (fun ev =>
    match ev with EvListdir p r => [(p, r)] | _ => [] end) t.

Definition confirm_answers (t : Trace) : list (string * (exn + bool)) :=
  flat_map (fun ev =>
    match ev with EvConfirm q r => [(q, r)] | _ => [] end) t.

Definition written_configs (t : Trace) : list (Config * (exn + unit)) :=
  flat_map (fun ev =>
    match ev with EvWriteConfig c r => [(c, r)] | _ => [] end) t.

Definition isfile_results (t : Trace) : list (string * bool) :=
  flat_map (fun ev =>
    match ev with EvIsFile p r => [(p, r)] | _ => [] end) t.

Definition diff_list_calls (t : Trace) : list (string * string * (exn + list string)) :=
  flat_map (fun ev =>
    match ev with EvGetTaxonomyDiff p b r => [(p, b, r)] | _ => [] end) t.

Record validation_call : Type := mk_validation {
  val_logger : Logger;
  val_taxonomy : string;
  val_taxonomy_base : string;
  val_yaml_rules : option string;
  val_result : exn + unit
}.

Definition read_taxonomy_calls (t : Trace) : list validation_call :=
  flat_map (fun ev =>
    match ev with
    | EvReadTaxonomy l p b y r => [mk_validation l p b y r]
    | _ => []
    end) t.

Definition getLogger_calls (t : Trace) : list string :=
  flat_map (fun ev =>
    match ev with EvGetLogger n => [n] | _ => [] end) t.

(** Process exit status of an invocation run under click's standalone
    mode, where this layer decides it: a returning command exits 0;
    [SystemExit(n)] and [click.exceptions.Exit(n)] exit with the low byte
    of [n].  For any other exception, and for a [SystemExit] whose
    argument is not an integer, the status depends on the object raised
    ([None] exits 0, a click exception exits with its own [exit_code],
    anything else 1) and is left undetermined. *)
Definition exit_status (r : Res unit) : option Z :=
  match r with
  | Val _ | Returned => Some 0
  | Raised (SystemExit (ExitCode n)) => Some (n mod 256)
  | Raised (ClickExit n) => Some (n mod 256)
  | Raised _ => None
  end.

(** An exception that escapes the command as a fault, as opposed to an
    exit request. *)
Definition unhandled (r : Res unit) : bool :=
  match r with
  | Raised (SystemExit _) | Raised (ClickExit _) => false
  | Raised _ => true
  | _ => false
  end.

(** The value lines 218-221 of [diff] leave in [taxonomy_base] and
    [taxonomy_path] when they do not raise: the option when it is truthy,
    the loaded configuration's field otherwise. *)
Definition or_configured (given : option string)
    (field : generate_section -> string) (ctx_obj : option Lab)
  : option string :=
  if py_not given
  then option_map (fun lab => field (generate (config lab))) ctx_obj
  else Some (str_of given).

(** Replacing the diff-list collaborator of an environment. *)
Definition with_get_taxonomy_diff
    (f : Trace -> string -> string -> exn + list string) (w : World) : World :=
  mk_World (DEFAULT_CONFIG w) (get_default_config w) (expand_path w)
    (dirname w) (os_path_exists w) (os_path_isfile w) (os_listdir w)
    (click_confirm w) (click_prompt w) (Repo_clone_from w)
    (config_write_config w) f (read_taxonomy w).

(** [os.path.isabs] on a POSIX path. *)
Definition isabs (p : string) : bool :=
  match p with
  | String "/"%char _ => true
  | _ => false
  end.

(** What the user typed at the prompts that were answered. *)
Definition prompt_answers (t : Trace) : list (string * string) :=
  flat_map (fun ev =>
    match ev with EvPrompt q _ (inr a) => [(q, a)] | _ => [] end) t.

Definition prompted (text : string) (t : Trace) : option string :=
  option_map snd (find (fun qa => String.eqb (fst qa) text) (prompt_answers t)).

(** The value a path variable of [init] holds after the prompt for it:
    the expanded answer if the prompt was shown and answered, the option
    otherwise. *)
Definition path_in_effect (w : World) (text given : string) (t : Trace)
  : string :=
  match prompted text t with
  | Some answer => expand_path w answer
  | None => given
  end.

(** The invariant of the data model read on one invocation: every path
    field of every configuration the invocation persists is absolute. *)
Definition persisted_paths_absolute (w : World) (interactive : bool)
    (model_path taxonomy_path taxonomy_base repository : string)
    (min_taxonomy : bool) : Prop :=
  forall cfg r,
    In (cfg, r)
       (written_configs
          (fst (run (init interactive model_path taxonomy_path taxonomy_base
                       repository min_taxonomy) w))) ->
    isabs (chat_model (chat cfg)) = true /\
    isabs (generate_model (generate cfg)) = true /\
    isabs (serve_model_path (serve cfg)) = true /\
    isabs (generate_taxonomy_path (generate cfg)) = true.

(* ------------------------------------------------------------------ *)
(** ** Sample environments *)

Fixpoint drop_to_slash (r : list ascii) : list ascii :=
  match r with
  | [] => []
  | c :: r' => if Ascii.eqb c "/" then r else drop_to_slash r'
  end.

Fixpoint strip_slashes (r : list ascii) : list ascii :=
  match r with
  | c :: r' => if Ascii.eqb c "/" then strip_slashes r' else r
  | [] => []
  end.

(** [posixpath.dirname], on the reversed path: everything up to the last
    slash, without trailing slashes unless it consists of slashes only. *)
Definition posix_dirname (p : string) : string :=
  let head := drop_to_slash (rev (list_ascii_of_string p)) in
  string_of_list_ascii
    (rev (match strip_slashes head with [] => head | h => h end)).

Definition sample_model : string := "models/merlinite-7b-lab-Q4_K_M.gguf".

Definition sample_config : Config :=
  mk_Config (mk_chat sample_model [("greedy_mode", "false")])
            (mk_generate sample_model "taxonomy" "origin/main"
               [("num_instructions", "100")])
            (mk_serve sample_model [("gpu_layers", "-1")]).

Definition sample_lab : Lab := mk_Lab sample_config "instructlab".

(** An environment whose answers do not change over time: no
    [config.yaml] and no models directory yet, a user who accepts every
    default, and the given answers for the remaining collaborators. *)
Definition sample_world (is_file : bool) (contents : exn + list string)
    (yes : bool) (clone : exn + unit) (changed : exn + list string)
    (valid : exn + unit) : World :=
  mk_World "config.yaml" sample_config
    (fun p => if isabs p then p else "/home/user/" ++ p)
    posix_dirname
    (fun _ _ => false)
    (fun _ _ => is_file)
    (fun _ _ => contents)
    (fun _ _ => inr yes)
    (fun _ _ default => inr default)
    (fun _ _ _ _ _ _ => clone)
    (fun _ _ => inr tt)
    (fun _ _ _ => changed)
    (fun _ _ _ _ _ => valid).

(** A checkout that validates, and one with a malformed YAML file. *)
Definition valid_world : World :=
  sample_world false (inr []) true (inr tt) (inr []) (inr tt).

Definition invalid_world : World :=
  sample_world false (inr []) true (inr tt) (inr [])
    (inl (YAMLError "mapping values are not allowed here")).


(** A populated taxonomy checkout: nothing to clone. *)
Definition populated_world : World :=
  sample_world false (inr ["README.md"; "compositional_skills"; "knowledge"])
    true (inr tt) (inr []) (inr tt).

(** An empty taxonomy directory and a clone that succeeds. *)
Definition empty_dir_world : World :=
  sample_world false (inr []) true (inr tt) (inr []) (inr tt).

(** A missing taxonomy directory and a clone that fails. *)
Definition offline_world : World :=
  sample_world false (inl (FileNotFoundError "[Errno 2] No such file or directory: 'taxonomy'"))
    true (inl (GitError "unable to access 'https://github.com/instructlab/taxonomy.git/'"))
    (inr []) (inr tt).

Definition taxonomy_repo : string := "https://github.com/instructlab/taxonomy.git".

(* ------------------------------------------------------------------ *)
(** ** Further observations and environments *)

Definition exists_results (t : Trace) : list (string * bool) :=
  flat_map (fun ev =>
    match ev with EvExists p r => [(p, r)] | _ => [] end) t.

(** Every prompt shown: its text, its default and what came back. *)
Definition prompt_results (t : Trace) : list (string * string * (exn + string)) :=
  flat_map (fun ev =>
    match ev with EvPrompt q d r => [(q, d, r)] | _ => [] end) t.

(** Replacing one collaborator of an environment. *)
Definition with_os_path_exists (f : Trace -> string -> bool) (w : World)
  : World :=
  mk_World (DEFAULT_CONFIG w) (get_default_config w) (expand_path w)
    (dirname w) f (os_path_isfile w) (os_listdir w)
    (click_confirm w) (click_prompt w) (Repo_clone_from w)
    (config_write_config w) (get_taxonomy_diff w) (read_taxonomy w).

Definition with_click_confirm (f : Trace -> string -> exn + bool) (w : World)
  : World :=
  mk_World (DEFAULT_CONFIG w) (get_default_config w) (expand_path w)
    (dirname w) (os_path_exists w) (os_path_isfile w) (os_listdir w)
    f (click_prompt w) (Repo_clone_from w)
    (config_write_config w) (get_taxonomy_diff w) (read_taxonomy w).

Definition with_click_prompt (f : Trace -> string -> string -> exn + string)
    (w : World) : World :=
  mk_World (DEFAULT_CONFIG w) (get_default_config w) (expand_path w)
    (dirname w) (os_path_exists w) (os_path_isfile w) (os_listdir w)
    (click_confirm w) f (Repo_clone_from w)
    (config_write_config w) (get_taxonomy_diff w) (read_taxonomy w).

Definition with_write_config (f : Trace -> Config -> exn + unit) (w : World)
  : World :=
  mk_World (DEFAULT_CONFIG w) (get_default_config w) (expand_path w)
    (dirname w) (os_path_exists w) (os_path_isfile w) (os_listdir w)
    (click_confirm w) (click_prompt w) (Repo_clone_from w)
    f (get_taxonomy_diff w) (read_taxonomy w).

(** A directory that already holds a [config.yaml] and a models
    directory, with a user who answers no. *)
Definition declining_world : World :=
  with_os_path_exists (fun _ _ => true)
    (sample_world false (inr []) false (inr tt) (inr []) (inr tt)).

(** The same directory with a user who answers yes. *)
Definition returning_world : World :=
  with_os_path_exists (fun _ _ => true) empty_dir_world.

(** An empty taxonomy directory and a user who declines the clone. *)
Definition no_clone_world : World :=
  sample_world false (inr []) false (inr tt) (inr []) (inr tt).

(** A taxonomy path that cannot be listed. *)
Definition unreadable_world : World :=
  sample_world false
    (inl (OtherException "PermissionError"
            "[Errno 13] Permission denied: 'taxonomy'"))
    true (inr tt) (inr []) (inr tt).

(** A clone that fails outside GitPython. *)
Definition disk_full_world : World :=
  sample_world false (inr []) true
    (inl (OtherException "OSError" "[Errno 28] No space left on device"))
    (inr []) (inr tt).

(** A current directory that cannot be written. *)
Definition read_only_world : World :=
  with_write_config
    (fun _ _ => inl (OtherException "PermissionError"
                       "[Errno 13] Permission denied: 'config.yaml'"))
    populated_world.

(** A user who interrupts the first prompt. *)
Definition interrupting_world : World :=
  with_click_prompt (fun _ _ _ => inl (OtherException "Abort" ""))
    empty_dir_world.

(** A checkout with two changed files. *)
Definition changed_files : list string :=
  ["compositional_skills/writing/qna.yaml"; "knowledge/science/qna.yaml"].

Definition changed_world (valid : exn + unit) : World :=
  sample_world false (inr []) true (inr tt) (inr changed_files) valid.

(** A checkout whose base ref is unknown to [read_taxonomy] itself. *)
Definition bad_ref_world : World :=
  sample_world true (inr []) true (inr tt) (inr [])
    (inl (GitError "bad revision 'origin/main'")).

(** A directory that is not a git checkout at all. *)
Definition not_a_repo_world : World :=
  sample_world false (inr []) true (inr tt)
    (inl (OtherException "TypeError" "expected str, bytes or os.PathLike"))
    (inr tt).

(* ------------------------------------------------------------------ *)
(** ** [sysinfo] (lab.py, lines 263-267) *)

(** The command's two kinds of external call: the probe
    [get_sysinfo()] and [print]. *)
Inductive SysEvent : Type :=
| EvGetSysinfo (r : exn + list (string * string))
| EvPrint (line : string).

Definition sysinfo_line (key value : string) : string :=
  key ++ ": " ++ value.

(** The loop over [.items()], threading the trace; a value is given as
    [str] renders it. *)
Fixpoint print_items (items : list (string * string)) (t : list SysEvent)
  : list SysEvent :=
  match items with
  | [] => t
  | (key, value) :: rest =>
      print_items rest (t ++ [EvPrint (sysinfo_line key value)])%list
  end.

Definition sysinfo (get_sysinfo : exn + list (string * string))
  : list SysEvent * Res unit :=
  match get_sysinfo with
  | inl e => ([EvGetSysinfo (inl e)], Raised e)
  | inr items => (print_items items [EvGetSysinfo (inr items)], Val tt)
  end.

Definition printed (t : list SysEvent) : list string :=
  flat_map (fun ev => match ev with EvPrint l => [l] | _ => [] end) t.

(* ------------------------------------------------------------------ *)
(** ** Symbolic execution of a command *)

Lemma call_eq {A : Type} (ask : World -> Trace -> exn + A) ev w t :
  call ask ev w t =
  ((t ++ [ev (ask w t)])%list,
   match ask w t with inl e => Raised e | inr a => Val a end).
Proof. reflexivity. Qed.

Lemma call_total_eq {A : Type} (ask : World -> Trace -> A) ev w t :
  call_total ask ev w t = ((t ++ [ev (ask w t)])%list, Val (ask w t)).
Proof. reflexivity. Qed.

Lemma for_each_echo (l : list string) (w : World) (t : Trace) :
  for_each l (fun f => echo f) w t = ((t ++ map EvEcho l)%list, Val tt).
Proof.
  revert t. induction l as [|x l IH]; intros t; cbn.
  - now rewrite app_nil_r.
  - now rewrite IH, <- app_assoc.
Qed.

(** Observations that ignore [click.echo] see nothing in a run of echoes;
    [stdout] sees exactly the echoed lines. *)
Lemma flat_map_echo_nil {B : Type} (g : Event -> list B) (l : list string) :
  (forall s, g (EvEcho s) = []) -> flat_map g (map EvEcho l) = [].
Proof.
  intros Hg. induction l as [|x l IH]; cbn; [reflexivity|].
  now rewrite Hg, IH.
Qed.

Lemma stdout_echoes (l : list string) : stdout (map EvEcho l) = l.
Proof.
  induction l as [|x l IH]; cbn; [reflexivity|]. now f_equal.
Qed.

Ltac unfold_cmd :=
  cbv beta iota zeta delta
    [run diff init py_def try_except emit env raise py_return bind ret
     Monad_M M_bind M_ret exists_ isfile listdir confirm prompt echo secho
     clone_from write_config getLogger utils_get_taxonomy_diff
     utils_read_taxonomy obj_config obj_logger];
  cbn [negb].

Ltac settle := cbv beta iota zeta; cbn [app negb].

(** One step: answer the next external call, or decide the next test. *)
Ltac step :=
  match goal with
  | |- context [call ?ask ?ev ?w ?t] =>
      rewrite (call_eq ask ev w t); cbv beta;
      let r := eval cbv beta in (ask w t) in
      let E := fresh "E" in destruct r eqn:E; settle
  | |- context [call_total ?ask ?ev ?w ?t] =>
      rewrite (call_total_eq ask ev w t); cbv beta;
      let r := eval cbv beta in (ask w t) in
      let E := fresh "E" in destruct r eqn:E; settle
  | |- context [for_each ?l ?body ?w ?t] =>
      rewrite (for_each_echo l w t : for_each l body w t = _); settle
  | |- context [negb ?b] => destruct b; settle
  | |- context [if ?b then _ else _] => destruct b eqn:?; settle
  | |- context [match ?e with SystemExit _ => _ | _ => _ end] =>
      destruct e; settle
  | |- context [match ?l with nil => _ | cons _ _ => _ end] =>
      destruct l; settle
  end.

(** Read off the finished run and the observations made on it. *)
Ltac observe :=
  intros;
  repeat match goal with
         | H : (_, _) = (_, _) |- _ => inversion H; subst; clear H
         end;
  unfold stdout, clone_calls, clone_results, listdir_results,
    confirm_answers, written_configs, isfile_results, diff_list_calls,
    read_taxonomy_calls, getLogger_calls in *;
  repeat (progress (cbn [flat_map app In fst snd] in *;
                    repeat rewrite flat_map_app in *;
                    repeat (rewrite flat_map_echo_nil in * by reflexivity))).

Ltac split_cases :=
  repeat match goal with
         | H : _ \/ _ |- _ => destruct H
         | H : False |- _ => destruct H
         | H : (_, _) = (_, _) |- _ => inversion H; subst; clear H
         | H : mk_clone _ _ _ _ _ = _ |- _ => subst
         end.


(** The two confirmation questions of [init] never coincide. *)
Lemma found_config_is_not_should_i_clone (d p r : string) :
  found_config d <> should_i_clone p r.
Proof. unfold found_config, should_i_clone. cbn. discriminate. Qed.

Ltac invert_answers :=
  repeat match goal with
         | H : exists _, _ |- _ => destruct H
         | H : (_, _) = (_, _) |- _ => inversion H; subst; clear H
         | H : inl _ = inl _ |- _ => inversion H; subst; clear H
         | H : inr _ = inr _ |- _ => inversion H; subst; clear H
         | H : found_config _ = should_i_clone _ _ |- _ =>
             destruct (found_config_is_not_should_i_clone _ _ _ H)
         end.

(* ------------------------------------------------------------------ *)
(** ** Symbolic execution, continued *)

(** [observe] with the observations on prompts and existence tests. *)
Ltac observe_more :=
  intros;
  repeat match goal with
         | H : (_, _) = (_, _) |- _ => inversion H; subst; clear H
         end;
  unfold exists_results, prompt_results in *;
  observe.

Lemma should_i_clone_is_not_found_config (d p r : string) :
  should_i_clone p r <> found_config d.
Proof.
  intros H. symmetry in H. revert H.
  apply found_config_is_not_should_i_clone.
Qed.

Ltac invert_more :=
  repeat match goal with
         | H : exists _, _ |- _ => destruct H
         | H : _ /\ _ |- _ => destruct H
         | H : (_, _) = (_, _) |- _ => inversion H; subst; clear H
         | H : inl _ = inl _ |- _ => inversion H; subst; clear H
         | H : inr _ = inr _ |- _ => inversion H; subst; clear H
         | H : found_config _ = should_i_clone _ _ |- _ =>
             destruct (found_config_is_not_should_i_clone _ _ _ H)
         | H : should_i_clone _ _ = found_config _ |- _ =>
             destruct (should_i_clone_is_not_found_config _ _ _ H)
         end.

(** Run [init] on every path and sort out the observations assumed. *)
Ltac run_init interactive :=
  unfold_cmd; destruct interactive; settle; repeat step; observe_more;
  repeat (progress (split_cases; try discriminate; invert_more;
                    try discriminate; cbn [In] in * ));
  try congruence.

(** The same for [diff]. *)
Ltac run_diff ctx_obj :=
  unfold or_configured; unfold_cmd; destruct ctx_obj as [lab|]; settle;
  repeat step; observe_more;
  repeat (progress (split_cases; subst; try discriminate; invert_more;
                    try discriminate; cbn [In val_result val_taxonomy
                      val_taxonomy_base val_yaml_rules val_logger] in * ));
  try congruence.

(** Fold the lines echoed by the listing loop back into [stdout]. *)
Ltac fold_echoes :=
  repeat match goal with
         | |- context [flat_map ?g (map EvEcho ?x)] =>
             change (flat_map g (map EvEcho x)) with (stdout (map EvEcho x));
             rewrite stdout_echoes
         end;
  rewrite <- ?app_assoc; cbn [app].

(** Use what is assumed of the environment's answers at every moment. *)
Ltac steady :=
  repeat match goal with
         | H : forall t q, click_confirm ?w t q = _,
           E : click_confirm ?w _ _ = _ |- _ => rewrite H in E
         | H : forall t, click_prompt ?w t ?q ?d = _,
           E : click_prompt ?w _ ?q ?d = _ |- _ => rewrite H in E
         | H : forall t, os_listdir ?w t ?p = _,
           E : os_listdir ?w _ ?p = _ |- _ => rewrite H in E
         | H : forall t u p b r d, Repo_clone_from ?w t u p b r d = _,
           E : Repo_clone_from ?w _ _ _ _ _ _ = _ |- _ => rewrite H in E
         | H : forall t c, config_write_config ?w t c = _,
           E : config_write_config ?w _ _ = _ |- _ => rewrite H in E
         | H : inl _ = inl _ |- _ => inversion H; subst; clear H
         | H : inr _ = inr _ |- _ => inversion H; subst; clear H
         | H : inl _ = inr _ |- _ => discriminate H
         | H : inr _ = inl _ |- _ => discriminate H
         | H : _ :: _ = [] |- _ => discriminate H
         | H : [] = _ :: _ |- _ => discriminate H
         end.

(** What [except FileNotFoundError] catches. *)
Lemma is_FileNotFoundError_inv (e : exn) :
  is_FileNotFoundError e = true -> exists m, e = FileNotFoundError m.
Proof.
  destruct e; intros H; try discriminate H. eexists. reflexivity.
Qed.

(** A listing that came back empty, or missing. *)
Ltac empty_or_missing :=
  first [ left; reflexivity
        | right;
          match goal with
          | H : is_FileNotFoundError ?e = true |- _ =>
              destruct (is_FileNotFoundError_inv e H) as [? ->];
              eexists; reflexivity
          end ].

(** Settle one path of a command against a statement made of
    conjunctions, implications and existentials over the observations. *)
Ltac sort_out :=
  repeat (progress (split_cases; invert_more; steady; subst;
                    try discriminate; cbn [In] in * )).

(** Finish one path: split the statement, use the answers assumed,
    then give the witnesses the path determines. *)
Ltac leaf :=
  repeat (match goal with
          | |- _ /\ _ => split
          | |- forall _, _ => intro
          end; sort_out);
  try congruence;
  repeat match goal with
         | |- _ /\ _ => split
         | |- exists _, _ => eexists
         end;
  cbn [clone_url clone_branch clone_recurse_submodules clone_to_path
       clone_depth];
  try reflexivity; try empty_or_missing;
  try (cbn [In]; first [ left; reflexivity
                       | right; left; reflexivity
                       | right; right; left; reflexivity ]).

(* ------------------------------------------------------------------ *)
(** ** The sample environments at work *)

Example posix_dirname_models : posix_dirname "/models/m" = "/models".
Proof. reflexivity. Qed.

Example posix_dirname_relative : posix_dirname sample_model = "models".
Proof. reflexivity. Qed.

Example posix_dirname_bare : posix_dirname "m.gguf" = "".
Proof. reflexivity. Qed.

Example posix_dirname_root : posix_dirname "//m" = "//".
Proof. reflexivity. Qed.

(* ------------------------------------------------------------------ *)
(** ** Properties of [diff] *)



(** C2.  A quiet [diff] writes nothing to standard output, whatever
    happens.  When the taxonomy path and base in effect are defined (the
    option, or the loaded configuration's value), the run consists of the
    logger fallback, if there is no context, and of one [read_taxonomy]
    call on them: if that call returns, the command returns (status 0);
    if it raises [SystemExit] or [YAMLError], the command raises
    [SystemExit(1)] (status 1). *)
Theorem diff_quiet_silent_with_exit_code
    (w : World) (ctx_obj : option Lab)
    (taxonomy_path taxonomy_base yaml_rules : option string)
    (tr : Trace) (res : Res unit) :
  run (diff ctx_obj taxonomy_path taxonomy_base yaml_rules true) w = (tr, res) ->
  stdout tr = [] /\
  forall p b,
    or_configured taxonomy_path generate_taxonomy_path ctx_obj = Some p ->
    or_configured taxonomy_base generate_taxonomy_base ctx_obj = Some b ->
    let lg := match ctx_obj with
              | Some lab => logger lab
              | None => "instructlab.lab"
              end in
    let before := match ctx_obj with
                  | Some _ => []
                  | None => [EvGetLogger "instructlab.lab"]
                  end in
    let answer := read_taxonomy w before lg p b yaml_rules in
    tr = (before ++ [EvReadTaxonomy lg p b yaml_rules answer])%list /\
    (answer = inr tt -> res = Val tt /\ exit_status res = Some 0) /\
    (forall e,
       answer = inl e -> is_SystemExit_or_YAMLError e = true ->
       res = Raised (SystemExit (ExitCode 1)) /\ exit_status res = Some 1).
Proof.
  unfold or_configured. unfold_cmd.
  destruct ctx_obj as [lab|]; settle; repeat step; observe;
    (split; [reflexivity|]); intros p b Hp Hb; cbn [option_map] in *;
    try discriminate;
    repeat match goal with
           | H : Some _ = Some _ |- _ => inversion H; subst; clear H
           end;
    cbv zeta; cbn [app]; unfold module_name in *;
    repeat match goal with
           | E : read_taxonomy _ _ _ _ _ _ = _ |- _ => rewrite E; clear E
           end;
    (split; [reflexivity|]); split; intros;
    repeat match goal with
           | H : inl _ = inl _ |- _ => inversion H; subst; clear H
           | H : inr _ = inl _ |- _ => discriminate H
           | H : inl _ = inr _ |- _ => discriminate H
           end;
    try congruence; split; reflexivity.
Qed.

Lemma diff_quiet_silent_with_exit_code_witness :
  let pass := run (diff (Some sample_lab) None None None true) valid_world in
  let fail := run (diff (Some sample_lab) None None None true) invalid_world in
  (stdout (fst pass) = [] /\
   fst pass = [EvReadTaxonomy "instructlab" "taxonomy" "origin/main" None (inr tt)] /\
   exit_status (snd pass) = Some 0) /\
  (stdout (fst fail) = [] /\
   fst fail = [EvReadTaxonomy "instructlab" "taxonomy" "origin/main" None
                 (inl (YAMLError "mapping values are not allowed here"))] /\
   exit_status (snd fail) = Some 1).
Proof.
  intros pass fail. split.
  - destruct (@diff_quiet_silent_with_exit_code valid_world (Some sample_lab)
                None None None (fst pass) (snd pass) eq_refl) as [Hout Hrun].
    destruct (Hrun "taxonomy" "origin/main" eq_refl eq_refl)
      as (Htr & Hok & _).
    split; [exact Hout|]. split; [exact Htr|].
    apply Hok. reflexivity.
  - destruct (@diff_quiet_silent_with_exit_code invalid_world (Some sample_lab)
                None None None (fst fail) (snd fail) eq_refl) as [Hout Hrun].
    destruct (Hrun "taxonomy" "origin/main" eq_refl eq_refl)
      as (Htr & _ & Hbad).
    split; [exact Hout|]. split; [exact Htr|].
    apply (Hbad (YAMLError "mapping values are not allowed here"));
      reflexivity.
Defined.



(** X13.  A non-quiet [diff] on a directory prints the changed files in
    the order [get_taxonomy_diff] lists them, then at most the verdict of
    the validation. *)
Lemma diff_lists_changed_files
    (w : World) (ctx_obj : option Lab)
    (taxonomy_path taxonomy_base yaml_rules : option string)
    (tr : Trace) (res : Res unit) (p b : string) (l : list string) :
  run (diff ctx_obj taxonomy_path taxonomy_base yaml_rules false) w = (tr, res) ->
  In (p, b, inr l) (diff_list_calls tr) ->
  exists verdict,
    stdout tr = (l ++ verdict)%list /\
    (verdict = [] \/ verdict = [taxonomy_is_valid p] \/
     exists e, verdict = [reading_failed e]).
Proof.
  unfold_cmd.
  destruct ctx_obj as [lab|]; settle; repeat step; observe; split_cases;
    try discriminate; invert_answers;
    match goal with
    | |- context [flat_map ?g (map EvEcho ?x)] =>
        change (flat_map g (map EvEcho x)) with (stdout (map EvEcho x));
        rewrite stdout_echoes
    end;
    rewrite <- ?app_assoc; cbn [app];
    eexists; (split; [reflexivity|]); eauto.
Qed.

(** C9.  A quiet [diff] never calls [get_taxonomy_diff]; its whole run,
    and so its exit status, is the same whatever that collaborator would
    have answered or raised. *)
Theorem diff_quiet_never_lists
    (w : World) (ctx_obj : option Lab)
    (taxonomy_path taxonomy_base yaml_rules : option string) :
  diff_list_calls
    (fst (run (diff ctx_obj taxonomy_path taxonomy_base yaml_rules true) w)) = []
  /\
  forall f,
    run (diff ctx_obj taxonomy_path taxonomy_base yaml_rules true)
        (with_get_taxonomy_diff f w)
    = run (diff ctx_obj taxonomy_path taxonomy_base yaml_rules true) w.
Proof.
  split.
  - unfold_cmd.
    destruct ctx_obj as [lab|]; settle; repeat step; reflexivity.
  - intros f. unfold run, diff.
    destruct ctx_obj as [lab|], (py_not taxonomy_base), (py_not taxonomy_path);
      reflexivity.
Qed.

(** C10.  When [taxonomy_base] or [taxonomy_path] is not supplied,
    [ctx.obj.config] is read before [ctx.obj] is tested: no such
    invocation ever takes the [logging.getLogger] fallback, and without a
    loaded context the command does nothing but raise [AttributeError],
    which is not an exit request and leaves no output. *)
Theorem diff_reads_config_before_ctx_test
    (w : World) (taxonomy_path taxonomy_base yaml_rules : option string)
    (quiet : bool) :
  py_not taxonomy_base || py_not taxonomy_path = true ->
  (forall ctx_obj,
     getLogger_calls
       (fst (run (diff ctx_obj taxonomy_path taxonomy_base yaml_rules quiet) w))
     = []) /\
  run (diff None taxonomy_path taxonomy_base yaml_rules quiet) w
  = ([], Raised (AttributeError "'NoneType' object has no attribute 'config'")) /\
  unhandled
    (snd (run (diff None taxonomy_path taxonomy_base yaml_rules quiet) w)) = true.
Proof.
  intros Hmissing.
  assert (Hnone :
    run (diff None taxonomy_path taxonomy_base yaml_rules quiet) w
    = ([], Raised (AttributeError "'NoneType' object has no attribute 'config'"))).
  { unfold run, diff.
    destruct (py_not taxonomy_base); [reflexivity|].
    destruct (py_not taxonomy_path); [reflexivity|discriminate Hmissing]. }
  split; [|split].
  - intros [lab|].
    + clear Hnone Hmissing. unfold_cmd. settle.
      destruct quiet; repeat step; observe; reflexivity.
    + now rewrite Hnone.
  - exact Hnone.
  - now rewrite Hnone.
Qed.

Lemma diff_reads_config_before_ctx_test_witness :
  run (diff None (Some "taxonomy") None None true) valid_world
  = ([], Raised (AttributeError "'NoneType' object has no attribute 'config'")).
Proof.
  apply (@diff_reads_config_before_ctx_test valid_world (Some "taxonomy") None
           None true).
  reflexivity.
Defined.

(** With both options supplied the fallback is taken: the test on
    [ctx.obj] is only reached then. *)
Example diff_fallback_logger_reached :
  run (diff None (Some "taxonomy") (Some "origin/main") None true) valid_world
  = ([EvGetLogger "instructlab.lab";
      EvReadTaxonomy "instructlab.lab" "taxonomy" "origin/main" None (inr tt)],
     Val tt).
Proof. reflexivity. Qed.

(* ------------------------------------------------------------------ *)
(** ** Properties of [init] *)

(** C4.  [init] clones at most once, and only into a directory whose
    listing came back empty or missing, from the [--repository] option,
    with [branch="main"] and [recurse_submodules=True], and in
    interactive mode only after the user confirmed; a non-empty listing
    means no clone.  Conversely an empty or missing directory is cloned
    into exactly once when the mode is non-interactive or the user
    confirmed.  In non-interactive mode the listing is always made, on
    the [--taxonomy-path] option as given; in interactive mode an empty
    or missing directory always leads to the question, and with a user
    who answers yes throughout the clone goes into the expanded path
    typed at the prompt. *)
Theorem init_clone_decision
    (w : World) (interactive : bool)
    (model_path taxonomy_path taxonomy_base repository : string)
    (min_taxonomy : bool) (tr : Trace) (res : Res unit) :
  run (init interactive model_path taxonomy_path taxonomy_base repository
         min_taxonomy) w = (tr, res) ->
  (forall c, In c (clone_calls tr) ->
     clone_calls tr = [c] /\
     clone_url c = repository /\
     clone_branch c = "main" /\
     clone_recurse_submodules c = true /\
     (exists r,
        listdir_results tr = [(clone_to_path c, r)] /\
        (r = inr [] \/ exists m, r = inl (FileNotFoundError m))) /\
     (interactive = true ->
        In (should_i_clone (clone_to_path c) repository, inr true)
           (confirm_answers tr))) /\
  (forall p x l, In (p, inr (x :: l)) (listdir_results tr) ->
     clone_calls tr = []) /\
  (forall p r, In (p, r) (listdir_results tr) ->
     r = inr [] \/ (exists m, r = inl (FileNotFoundError m)) ->
     interactive = false \/
     In (should_i_clone p repository, inr true) (confirm_answers tr) ->
     exists d, clone_calls tr = [mk_clone repository p "main" true d]) /\
  (interactive = false ->
     listdir_results tr = [(taxonomy_path, os_listdir w [] taxonomy_path)]) /\
  (interactive = false ->
   os_listdir w [] taxonomy_path = inr [] \/
   (exists m, os_listdir w [] taxonomy_path = inl (FileNotFoundError m)) ->
   exists d,
     clone_calls tr = [mk_clone repository taxonomy_path "main" true d]) /\
  (interactive = true ->
   forall p r, In (p, r) (listdir_results tr) ->
     r = inr [] \/ (exists m, r = inl (FileNotFoundError m)) ->
     exists answer,
       In (should_i_clone p repository, answer) (confirm_answers tr)) /\
  (interactive = true ->
   forall typed r,
     (forall t q, click_confirm w t q = inr true) ->
     (forall t, click_prompt w t "Path to taxonomy repo" taxonomy_path
                = inr typed) ->
     (forall t, os_listdir w t (expand_path w typed) = r) ->
     r = inr [] \/ (exists m, r = inl (FileNotFoundError m)) ->
     exists d,
       clone_calls tr
       = [mk_clone repository (expand_path w typed) "main" true d]).
Proof.
  unfold_cmd.
  destruct interactive; settle; repeat step; observe_more; leaf.
Qed.

Lemma init_clone_decision_witness :
  clone_calls
    (fst (run (init false sample_model "taxonomy" "origin/main" taxonomy_repo
                 false) populated_world)) = []
  /\
  (exists d,
     clone_calls
       (fst (run (init false sample_model "taxonomy" "origin/main"
                    taxonomy_repo false) offline_world))
     = [mk_clone taxonomy_repo "taxonomy" "main" true d])
  /\
  (exists d,
     clone_calls
       (fst (run (init true sample_model "taxonomy" "origin/main" taxonomy_repo
                    false) empty_dir_world))
     = [mk_clone taxonomy_repo "/home/user/taxonomy" "main" true d]).
Proof.
  split; [|split].
  - pose (r := run (init false sample_model "taxonomy" "origin/main"
                      taxonomy_repo false) populated_world).
    destruct (@init_clone_decision populated_world false sample_model
                "taxonomy" "origin/main" taxonomy_repo false (fst r) (snd r)
                eq_refl)
      as (_ & Hskip & _).
    apply (Hskip "taxonomy" "README.md" ["compositional_skills"; "knowledge"]).
    simpl. left. reflexivity.
  - pose (r := run (init false sample_model "taxonomy" "origin/main"
                      taxonomy_repo false) offline_world).
    destruct (@init_clone_decision offline_world false sample_model
                "taxonomy" "origin/main" taxonomy_repo false (fst r) (snd r)
                eq_refl)
      as (_ & _ & _ & _ & Hclone & _).
    apply Hclone; [reflexivity|].
    right. eexists. reflexivity.
  - pose (r := run (init true sample_model "taxonomy" "origin/main"
                      taxonomy_repo false) empty_dir_world).
    destruct (@init_clone_decision empty_dir_world true sample_model
                "taxonomy" "origin/main" taxonomy_repo false (fst r) (snd r)
                eq_refl)
      as (_ & _ & _ & _ & _ & _ & Hclone).
    apply (Hclone eq_refl "taxonomy" (inr [])).
    + intros t q. reflexivity.
    + intros t. reflexivity.
    + intros t. reflexivity.
    + left. reflexivity.
Defined.

(** C5.  Every clone [init] requests has [depth=1] when
    [--min-taxonomy] is set and [depth=False] (full history) when it is
    not.  An invocation that reaches the clone step, announcing
    "Cloning ...", makes exactly one such request; a non-interactive
    invocation on an empty or missing directory reaches it. *)
Theorem init_clone_depth
    (w : World) (interactive : bool)
    (model_path taxonomy_path taxonomy_base repository : string)
    (min_taxonomy : bool) (tr : Trace) (res : Res unit) :
  run (init interactive model_path taxonomy_path taxonomy_base repository
         min_taxonomy) w = (tr, res) ->
  (forall c, In c (clone_calls tr) ->
     clone_depth c = if min_taxonomy then DepthInt 1 else DepthFalse) /\
  (In (EvEcho ("Cloning " ++ repository ++ "...")) tr ->
   exists p,
     clone_calls tr
     = [mk_clone repository p "main" true
          (if min_taxonomy then DepthInt 1 else DepthFalse)]) /\
  (interactive = false ->
   os_listdir w [] taxonomy_path = inr [] \/
   (exists m, os_listdir w [] taxonomy_path = inl (FileNotFoundError m)) ->
   In (EvEcho ("Cloning " ++ repository ++ "...")) tr /\
   clone_calls tr
   = [mk_clone repository taxonomy_path "main" true
        (if min_taxonomy then DepthInt 1 else DepthFalse)]).
Proof.
  unfold_cmd.
  destruct interactive, min_taxonomy; settle; repeat step; observe_more;
    unfold welcome, please_provide, generating, completed, cloning in *;
    leaf;
    repeat match goal with
           | H : EvEcho _ = EvEcho _ |- _ => inversion H; clear H
           | H : _ = EvEcho _ |- _ => discriminate H
           end;
    try discriminate.
Qed.

Lemma init_clone_depth_witness :
  clone_calls
    (fst (run (init false sample_model "taxonomy" "origin/main" taxonomy_repo
                 true) empty_dir_world))
  = [mk_clone taxonomy_repo "taxonomy" "main" true (DepthInt 1)]
  /\
  clone_calls
    (fst (run (init false sample_model "taxonomy" "origin/main" taxonomy_repo
                 false) empty_dir_world))
  = [mk_clone taxonomy_repo "taxonomy" "main" true DepthFalse].
Proof.
  split.
  - pose (r := run (init false sample_model "taxonomy" "origin/main"
                      taxonomy_repo true) empty_dir_world).
    destruct (@init_clone_depth empty_dir_world false sample_model "taxonomy"
                "origin/main" taxonomy_repo true (fst r) (snd r) eq_refl)
      as (_ & _ & Hreached).
    destruct (Hreached eq_refl) as [_ Hclone].
    + left. reflexivity.
    + exact Hclone.
  - pose (r := run (init false sample_model "taxonomy" "origin/main"
                      taxonomy_repo false) empty_dir_world).
    destruct (@init_clone_depth empty_dir_world false sample_model "taxonomy"
                "origin/main" taxonomy_repo false (fst r) (snd r) eq_refl)
      as (_ & _ & Hreached).
    destruct (Hreached eq_refl) as [_ Hclone].
    + left. reflexivity.
    + exact Hclone.
Defined.

(** C6.  An invocation of [init] that returns normally, other than by
    the user declining to continue over an existing configuration, has
    written exactly one configuration, successfully: its [chat.model],
    [generate.model] and [serve.model_path] all hold the model path in
    effect, its [generate.taxonomy_path] and [generate.taxonomy_base]
    hold the taxonomy path in effect and the [--taxonomy-base] option,
    the other settings are the defaults, completion is announced last
    and the process exits with status 0.  A non-interactive invocation
    whose directory listing, clone and write do not fail is such an
    invocation, and writes the options themselves. *)
Theorem init_success_writes_config
    (w : World) (interactive : bool)
    (model_path taxonomy_path taxonomy_base repository : string)
    (min_taxonomy : bool) (tr : Trace) (res : Res unit) :
  run (init interactive model_path taxonomy_path taxonomy_base repository
         min_taxonomy) w = (tr, res) ->
  (res = Val tt ->
   ~ In (found_config (DEFAULT_CONFIG w), inr false) (confirm_answers tr) ->
   let m := path_in_effect w "Path to your model" model_path tr in
   let p := path_in_effect w "Path to taxonomy repo" taxonomy_path tr in
   exists cfg,
     written_configs tr = [(cfg, inr tt)] /\
     chat_model (chat cfg) = m /\
     generate_model (generate cfg) = m /\
     serve_model_path (serve cfg) = m /\
     generate_taxonomy_path (generate cfg) = p /\
     generate_taxonomy_base (generate cfg) = taxonomy_base /\
     (chat_rest (chat cfg) = chat_rest (chat (get_default_config w)) /\
      generate_rest (generate cfg)
      = generate_rest (generate (get_default_config w)) /\
      serve_rest (serve cfg) = serve_rest (serve (get_default_config w))) /\
     (interactive = false -> m = model_path /\ p = taxonomy_path) /\
     last (stdout tr) ""
     = "Initialization completed successfully, you're ready to start using `ilab`. Enjoy!" /\
     exit_status res = Some 0) /\
  (interactive = false ->
   (forall e, os_listdir w [] taxonomy_path = inl e ->
              is_FileNotFoundError e = true) ->
   (forall t u p b r d, Repo_clone_from w t u p b r d = inr tt) ->
   (forall t c, config_write_config w t c = inr tt) ->
   res = Val tt /\
   exit_status res = Some 0 /\
   exists cfg,
     written_configs tr = [(cfg, inr tt)] /\
     chat_model (chat cfg) = model_path /\
     generate_model (generate cfg) = model_path /\
     serve_model_path (serve cfg) = model_path /\
     generate_taxonomy_path (generate cfg) = taxonomy_path /\
     generate_taxonomy_base (generate cfg) = taxonomy_base).
Proof.
  unfold_cmd.
  destruct interactive; settle; repeat step; observe_more;
    repeat match goal with u : unit |- _ => destruct u end; split.
  all: try (intros Hres Hgo; try discriminate Hres;
            try (exfalso; apply Hgo; cbn; tauto);
            cbv zeta; eexists; repeat split; try reflexivity;
            discriminate).
  all: intros Hi; try discriminate Hi; intros Hdir Hclone Hwrite;
    steady;
    try match goal with
        | H : is_FileNotFoundError ?e = false |- _ =>
            rewrite (Hdir e eq_refl) in H; discriminate H
        end;
    repeat match goal with u : unit |- _ => destruct u end;
    (split; [reflexivity|]); (split; [reflexivity|]);
    eexists; repeat split; reflexivity.
Qed.

Lemma init_success_writes_config_witness :
  let r := run (init false "/models/m" "/tax" "origin/main" taxonomy_repo
                  false) empty_dir_world in
  snd r = Val tt /\
  exit_status (snd r) = Some 0 /\
  exists cfg,
    written_configs (fst r) = [(cfg, inr tt)] /\
    chat_model (chat cfg) = "/models/m" /\
    generate_model (generate cfg) = "/models/m" /\
    serve_model_path (serve cfg) = "/models/m" /\
    generate_taxonomy_path (generate cfg) = "/tax" /\
    generate_taxonomy_base (generate cfg) = "origin/main".
Proof.
  intros r.
  destruct (@init_success_writes_config empty_dir_world false "/models/m"
              "/tax" "origin/main" taxonomy_repo false (fst r) (snd r) eq_refl)
    as [_ Hscenario].
  apply Hscenario.
  - reflexivity.
  - intros e He. discriminate He.
  - intros t u p b rs d. reflexivity.
  - intros t c. reflexivity.
Defined.

(** Declining to overwrite an existing configuration is the one way
    [init] returns without writing: no output, no clone, no file. *)
Lemma init_declined_overwrite
    (w : World) (model_path taxonomy_path taxonomy_base repository : string)
    (min_taxonomy : bool) :
  os_path_exists w [] (DEFAULT_CONFIG w) = true ->
  click_confirm w [EvExists (DEFAULT_CONFIG w) true]
    (found_config (DEFAULT_CONFIG w)) = inr false ->
  run (init true model_path taxonomy_path taxonomy_base repository
         min_taxonomy) w
  = ([EvExists (DEFAULT_CONFIG w) true;
      EvConfirm (found_config (DEFAULT_CONFIG w)) (inr false)],
     Val tt).
Proof.
  intros Hfound Hno. unfold_cmd.
  rewrite call_total_eq. cbv beta. rewrite Hfound. settle.
  rewrite call_eq. cbv beta. rewrite Hno. reflexivity.
Qed.

(** C7, as the code has it.  Only values typed at a prompt are
    expanded.  In interactive mode the taxonomy path written is
    [expand_path] of the prompt's answer; the model path written is
    [expand_path] of the model prompt's answer when that prompt was
    shown and the [--model-path] option as given when it was not.  In
    non-interactive mode both paths are written exactly as the options
    give them. *)
Theorem init_persisted_paths
    (w : World) (interactive : bool)
    (model_path taxonomy_path taxonomy_base repository : string)
    (min_taxonomy : bool) (tr : Trace) (res : Res unit)
    (cfg : Config) (r : exn + unit) :
  run (init interactive model_path taxonomy_path taxonomy_base repository
         min_taxonomy) w = (tr, res) ->
  In (cfg, r) (written_configs tr) ->
  (interactive = true ->
     exists answer,
       prompted "Path to taxonomy repo" tr = Some answer /\
       generate_taxonomy_path (generate cfg) = expand_path w answer) /\
  (forall answer,
     prompted "Path to your model" tr = Some answer ->
     chat_model (chat cfg) = expand_path w answer) /\
  (prompted "Path to your model" tr = None ->
     chat_model (chat cfg) = model_path) /\
  (interactive = false ->
     generate_taxonomy_path (generate cfg) = taxonomy_path /\
     chat_model (chat cfg) = model_path) /\
  generate_model (generate cfg) = chat_model (chat cfg) /\
  serve_model_path (serve cfg) = chat_model (chat cfg).
Proof.
  unfold_cmd.
  destruct interactive; settle; repeat step; observe; split_cases;
    try discriminate; invert_answers;
    cbn [chat_model generate_model serve_model_path generate_taxonomy_path
         chat generate serve set_chat_model set_generate_model
         set_serve_model_path set_generate_taxonomy_path
         set_generate_taxonomy_base];
    repeat split; try reflexivity; intros; try discriminate.
  all: try match goal with
           | H : prompted _ _ = Some _ |- _ => inversion H; subst; clear H
           end.
  all: try reflexivity.
  all: eexists; split; reflexivity.
Qed.

Lemma init_persisted_paths_witness :
  let tr := fst (run (init true sample_model "taxonomy" "origin/main"
                        taxonomy_repo false) empty_dir_world) in
  exists cfg,
    written_configs tr = [(cfg, inr tt)] /\
    generate_taxonomy_path (generate cfg) = "/home/user/taxonomy" /\
    chat_model (chat cfg) = sample_model.
Proof.
  intros tr.
  pose (cfg :=
    mk_Config (mk_chat sample_model [("greedy_mode", "false")])
      (mk_generate sample_model "/home/user/taxonomy" "origin/main"
         [("num_instructions", "100")])
      (mk_serve sample_model [("gpu_layers", "-1")])).
  exists cfg.
  destruct (@init_persisted_paths empty_dir_world true sample_model
              "taxonomy" "origin/main" taxonomy_repo false tr
              (snd (run (init true sample_model "taxonomy" "origin/main"
                           taxonomy_repo false) empty_dir_world))
              cfg (inr tt) eq_refl)
    as (Htax & _ & Hmodel & _).
  - simpl. left. reflexivity.
  - split; [reflexivity|].
    destruct (Htax eq_refl) as (answer & Hanswer & Hpath).
    injection Hanswer as <-.
    split; [exact Hpath|exact (Hmodel eq_refl)].
Defined.

(** C7 as stated fails: a non-interactive [init] with the relative
    defaults persists them unchanged. *)
Lemma init_persisted_paths_counterexample :
  ~ persisted_paths_absolute populated_world false sample_model "taxonomy"
      "origin/main" taxonomy_repo false.
Proof.
  intros Hall.
  destruct (Hall
    (mk_Config (mk_chat sample_model [("greedy_mode", "false")])
       (mk_generate sample_model "taxonomy" "origin/main"
          [("num_instructions", "100")])
       (mk_serve sample_model [("gpu_layers", "-1")]))
    (inr tt)) as (Hmodel & _).
  - simpl. left. reflexivity.
  - discriminate Hmodel.
Qed.

(** C8.  When the clone raises a [GitError], the last things [init]
    does are to print "Failed to clone taxonomy repo: ..." in red and
    the advice to run [git clone] by hand; it writes no configuration
    and leaves through [click.exceptions.Exit(1)]: an exit request with
    status 1, not an unhandled exception.  A non-interactive invocation
    on an empty or missing directory whose clone fails so prints
    exactly the announcement and these two lines. *)
Theorem init_clone_failure_reported
    (w : World) (interactive : bool)
    (model_path taxonomy_path taxonomy_base repository : string)
    (min_taxonomy : bool) (tr : Trace) (res : Res unit) :
  run (init interactive model_path taxonomy_path taxonomy_base repository
         min_taxonomy) w = (tr, res) ->
  (forall e, In (inl e) (clone_results tr) -> is_GitError e = true ->
     res = Raised (ClickExit 1) /\
     exit_status res = Some 1 /\
     unhandled res = false /\
     written_configs tr = [] /\
     exists before p d,
       tr = (before ++
             [EvCloneFrom repository p "main" true d (inl e);
              EvSecho ("Failed to clone taxonomy repo: " ++ str_exn e)
                (Some "red");
              EvSecho ("Please make sure to manually run `git clone "
                       ++ repository ++ "`") None])%list) /\
  (interactive = false ->
   forall m,
     os_listdir w [] taxonomy_path = inr [] \/
     (exists n, os_listdir w [] taxonomy_path = inl (FileNotFoundError n)) ->
     (forall t u p b r d, Repo_clone_from w t u p b r d = inl (GitError m)) ->
     stdout tr
     = ["Cloning " ++ repository ++ "...";
        "Failed to clone taxonomy repo: " ++ m;
        "Please make sure to manually run `git clone " ++ repository ++ "`"]
     /\ res = Raised (ClickExit 1)
     /\ exit_status res = Some 1).
Proof.
  unfold_cmd.
  destruct interactive; settle; repeat step; observe_more; split.
  all: try (intros ? Hin Hgit; cbn [In] in Hin; sort_out; try congruence;
            repeat split;
            match goal with
            | |- exists b p d, ?t = _ =>
                exists (removelast (removelast (removelast t)));
                do 2 eexists; reflexivity
            end).
  all: intros Hi; try discriminate Hi; intros ? Hdir Hclone;
    sort_out; try congruence;
    repeat split; reflexivity.
Qed.

Lemma init_clone_failure_reported_witness :
  let r := run (init false sample_model "taxonomy" "origin/main" taxonomy_repo
                  false) offline_world in
  stdout (fst r)
  = ["Cloning https://github.com/instructlab/taxonomy.git...";
     "Failed to clone taxonomy repo: unable to access 'https://github.com/instructlab/taxonomy.git/'";
     "Please make sure to manually run `git clone https://github.com/instructlab/taxonomy.git`"]
  /\ snd r = Raised (ClickExit 1)
  /\ exit_status (snd r) = Some 1.
Proof.
  intros r.
  destruct (@init_clone_failure_reported offline_world false sample_model
              "taxonomy" "origin/main" taxonomy_repo false (fst r) (snd r)
              eq_refl)
    as [_ Hscenario].
  apply (Hscenario eq_refl
           "unable to access 'https://github.com/instructlab/taxonomy.git/'").
  - right. eexists. reflexivity.
  - intros t u p b rs d. reflexivity.
Defined.

(* ------------------------------------------------------------------ *)
(** ** Further properties of [init] *)

(** X1.  A non-interactive [init] asks nothing: no confirmation, no
    prompt, no look for an existing configuration or models directory;
    its first act is to list the [--taxonomy-path] option as given. *)
Theorem init_non_interactive_never_asks
    (w : World) (model_path taxonomy_path taxonomy_base repository : string)
    (min_taxonomy : bool) :
  let tr := fst (run (init false model_path taxonomy_path taxonomy_base
                        repository min_taxonomy) w) in
  confirm_answers tr = [] /\
  prompt_results tr = [] /\
  exists_results tr = [] /\
  listdir_results tr = [(taxonomy_path, os_listdir w [] taxonomy_path)].
Proof.
  unfold_cmd. settle. repeat step; observe_more; cbn [fst]; observe_more;
    repeat split; try reflexivity; congruence.
Qed.

(** X2.  When the user declines to continue over an existing
    configuration, [init] has done nothing but look for the file and ask:
    nothing is printed, listed, cloned or written, and it returns. *)
Theorem init_overwrite_declined
    (w : World) (interactive : bool)
    (model_path taxonomy_path taxonomy_base repository : string)
    (min_taxonomy : bool) (tr : Trace) (res : Res unit) :
  run (init interactive model_path taxonomy_path taxonomy_base repository
         min_taxonomy) w = (tr, res) ->
  In (found_config (DEFAULT_CONFIG w), inr false) (confirm_answers tr) ->
  tr = [EvExists (DEFAULT_CONFIG w) true;
        EvConfirm (found_config (DEFAULT_CONFIG w)) (inr false)] /\
  res = Val tt.
Proof.
  run_init interactive.
  all: split; reflexivity.
Qed.

Lemma init_overwrite_declined_witness :
  let r := run (init true sample_model "taxonomy" "origin/main" taxonomy_repo
                  false) declining_world in
  stdout (fst r) = [] /\ written_configs (fst r) = [] /\ snd r = Val tt.
Proof.
  intros r.
  destruct (@init_overwrite_declined declining_world true sample_model
              "taxonomy" "origin/main" taxonomy_repo false (fst r) (snd r))
    as [Htr Hres].
  - reflexivity.
  - simpl. left. reflexivity.
  - split; [rewrite Htr; reflexivity|].
    split; [rewrite Htr; reflexivity|exact Hres].
Defined.

(** X3.  When the user declines the clone of an empty or missing
    taxonomy directory, nothing is cloned and [init] carries on: it
    writes a configuration that points at that directory, unless the
    model prompt is interrupted. *)
Theorem init_clone_declined
    (w : World) (interactive : bool)
    (model_path taxonomy_path taxonomy_base repository : string)
    (min_taxonomy : bool) (tr : Trace) (res : Res unit)
    (p : string) (r : exn + list string) :
  run (init interactive model_path taxonomy_path taxonomy_base repository
         min_taxonomy) w = (tr, res) ->
  In (p, r) (listdir_results tr) ->
  In (should_i_clone p repository, inr false) (confirm_answers tr) ->
  clone_calls tr = [] /\
  ((exists cfg r',
      written_configs tr = [(cfg, r')] /\
      generate_taxonomy_path (generate cfg) = p) \/
   (exists d e, In ("Path to your model", d, inl e) (prompt_results tr))).
Proof.
  run_init interactive.
  all: split; [reflexivity|].
  all: first [ left; do 2 eexists; split; reflexivity
             | right; do 2 eexists; cbn; eauto ].
Qed.

Lemma init_clone_declined_witness :
  let tr := fst (run (init true sample_model "taxonomy" "origin/main"
                        taxonomy_repo false) no_clone_world) in
  clone_calls tr = [] /\ length (written_configs tr) = 1%nat.
Proof.
  intros tr.
  destruct (@init_clone_declined no_clone_world true sample_model "taxonomy"
              "origin/main" taxonomy_repo false tr
              (snd (run (init true sample_model "taxonomy" "origin/main"
                           taxonomy_repo false) no_clone_world))
              "/home/user/taxonomy" (inr []))
    as [Hclone _].
  - reflexivity.
  - simpl. left. reflexivity.
  - simpl. left. reflexivity.
  - split; [exact Hclone|reflexivity].
Defined.

(** X4.  An error of [os.listdir] other than [FileNotFoundError] (the
    path is a file, or unreadable) is not handled: it leaves [init] as
    raised, right after the listing, with nothing cloned or written. *)
Theorem init_listdir_error_propagates
    (w : World) (interactive : bool)
    (model_path taxonomy_path taxonomy_base repository : string)
    (min_taxonomy : bool) (tr : Trace) (res : Res unit)
    (p : string) (e : exn) :
  run (init interactive model_path taxonomy_path taxonomy_base repository
         min_taxonomy) w = (tr, res) ->
  In (p, inl e) (listdir_results tr) ->
  is_FileNotFoundError e = false ->
  res = Raised e /\
  clone_calls tr = [] /\
  written_configs tr = [] /\
  exists before, tr = (before ++ [EvListdir p (inl e)])%list.
Proof.
  run_init interactive.
  all: repeat split; try reflexivity.
  all: match goal with
       | |- exists b, ?t = (b ++ [?x])%list =>
           exists (removelast t); reflexivity
       end.
Qed.

Lemma init_listdir_error_propagates_witness :
  let r := run (init false sample_model "taxonomy" "origin/main" taxonomy_repo
                  false) unreadable_world in
  snd r = Raised (OtherException "PermissionError"
                    "[Errno 13] Permission denied: 'taxonomy'") /\
  clone_calls (fst r) = [] /\
  written_configs (fst r) = [].
Proof.
  intros r.
  destruct (@init_listdir_error_propagates unreadable_world false sample_model
              "taxonomy" "origin/main" taxonomy_repo false (fst r) (snd r)
              "taxonomy"
              (OtherException "PermissionError"
                 "[Errno 13] Permission denied: 'taxonomy'"))
    as (Hres & Hclone & Hcfg & _).
  - reflexivity.
  - simpl. left. reflexivity.
  - reflexivity.
  - repeat split; assumption.
Defined.

(** X5.  A clone failure that is not a [GitError] is not reported: the
    exception leaves [init] as raised, the last line printed is the
    "Cloning ..." announcement, and no configuration is written. *)
Theorem init_clone_other_error_propagates
    (w : World) (interactive : bool)
    (model_path taxonomy_path taxonomy_base repository : string)
    (min_taxonomy : bool) (tr : Trace) (res : Res unit) (e : exn) :
  run (init interactive model_path taxonomy_path taxonomy_base repository
         min_taxonomy) w = (tr, res) ->
  In (inl e) (clone_results tr) ->
  is_GitError e = false ->
  res = Raised e /\
  written_configs tr = [] /\
  last (stdout tr) "" = cloning repository.
Proof.
  run_init interactive.
  all: repeat split; reflexivity.
Qed.

Lemma init_clone_other_error_propagates_witness :
  let r := run (init false sample_model "taxonomy" "origin/main" taxonomy_repo
                  false) disk_full_world in
  snd r = Raised (OtherException "OSError"
                    "[Errno 28] No space left on device") /\
  written_configs (fst r) = [].
Proof.
  intros r.
  destruct (@init_clone_other_error_propagates disk_full_world false
              sample_model "taxonomy" "origin/main" taxonomy_repo false
              (fst r) (snd r)
              (OtherException "OSError" "[Errno 28] No space left on device"))
    as (Hres & Hcfg & _).
  - reflexivity.
  - simpl. left. reflexivity.
  - reflexivity.
  - split; assumption.
Defined.

(** X6.  When [config.write_config] raises, the exception leaves [init]
    as raised and the write is the last thing that happened: completion
    is never announced, the last line printed is "Generating ...". *)
Theorem init_write_failure_propagates
    (w : World) (interactive : bool)
    (model_path taxonomy_path taxonomy_base repository : string)
    (min_taxonomy : bool) (tr : Trace) (res : Res unit)
    (cfg : Config) (e : exn) :
  run (init interactive model_path taxonomy_path taxonomy_base repository
         min_taxonomy) w = (tr, res) ->
  In (cfg, inl e) (written_configs tr) ->
  res = Raised e /\
  last (stdout tr) "" = generating (DEFAULT_CONFIG w) /\
  exists before, tr = (before ++ [EvWriteConfig cfg (inl e)])%list.
Proof.
  run_init interactive.
  all: repeat split; try reflexivity.
  all: match goal with
       | |- exists b, ?t = (b ++ [?x])%list =>
           exists (removelast t); reflexivity
       end.
Qed.

Lemma init_write_failure_propagates_witness :
  let r := run (init false sample_model "taxonomy" "origin/main" taxonomy_repo
                  false) read_only_world in
  snd r = Raised (OtherException "PermissionError"
                    "[Errno 13] Permission denied: 'config.yaml'") /\
  last (stdout (fst r)) "" = "Generating `config.yaml` in the current directory...".
Proof.
  intros r.
  destruct (@init_write_failure_propagates read_only_world false sample_model
              "taxonomy" "origin/main" taxonomy_repo false (fst r) (snd r)
              sample_config
              (OtherException "PermissionError"
                 "[Errno 13] Permission denied: 'config.yaml'"))
    as (Hres & Hlast & _).
  - reflexivity.
  - simpl. left. reflexivity.
  - split; [exact Hres|exact Hlast].
Defined.

(** X7.  No step of [init] is retried: one invocation lists at most one
    directory, clones at most once, writes at most one configuration,
    and asks at most two confirmations and two prompts. *)
Theorem init_no_retries
    (w : World) (interactive : bool)
    (model_path taxonomy_path taxonomy_base repository : string)
    (min_taxonomy : bool) :
  let tr := fst (run (init interactive model_path taxonomy_path taxonomy_base
                        repository min_taxonomy) w) in
  (length (listdir_results tr) <= 1)%nat /\
  (length (clone_calls tr) <= 1)%nat /\
  (length (written_configs tr) <= 1)%nat /\
  (length (confirm_answers tr) <= 2)%nat /\
  (length (prompt_results tr) <= 2)%nat.
Proof.
  unfold_cmd; destruct interactive; settle; repeat step; cbn [fst];
    observe_more; cbn [length]; repeat split; repeat constructor.
Qed.

(** X8.  A configuration is written only once every clone of the
    invocation has returned normally, and the write is the last external
    call but for the closing announcement. *)
Theorem init_writes_after_clone_settled
    (w : World) (interactive : bool)
    (model_path taxonomy_path taxonomy_base repository : string)
    (min_taxonomy : bool) (tr : Trace) (res : Res unit)
    (cfg : Config) (r : exn + unit) :
  run (init interactive model_path taxonomy_path taxonomy_base repository
         min_taxonomy) w = (tr, res) ->
  In (cfg, r) (written_configs tr) ->
  (forall x, In x (clone_results tr) -> x = inr tt) /\
  exists before,
    tr = (before ++ [EvWriteConfig cfg r])%list \/
    tr = (before ++ [EvWriteConfig cfg r; EvEcho completed])%list.
Proof.
  run_init interactive.
  all: split; [intros x Hx; cbn in Hx; split_cases; subst;
               repeat match goal with u : unit |- _ => destruct u end;
               reflexivity|].
  all: match goal with
       | |- exists b, ?t = _ \/ _ =>
           first [ exists (removelast t); left; reflexivity
                 | exists (removelast (removelast t)); right; reflexivity ]
       end.
Qed.

Lemma init_writes_after_clone_settled_witness :
  let tr := fst (run (init false sample_model "taxonomy" "origin/main"
                        taxonomy_repo false) empty_dir_world) in
  Forall (fun x => x = inr tt) (clone_results tr).
Proof.
  intros tr.
  destruct (@init_writes_after_clone_settled empty_dir_world false sample_model
              "taxonomy" "origin/main" taxonomy_repo false tr
              (snd (run (init false sample_model "taxonomy" "origin/main"
                           taxonomy_repo false) empty_dir_world))
              sample_config (inr tt))
    as [Hclones _].
  - reflexivity.
  - simpl. left. reflexivity.
  - apply Forall_forall. exact Hclones.
Defined.

(** X9.  [init] returns normally in exactly two ways: the user declined
    to continue over an existing configuration, or a configuration was
    written successfully and completion announced last. *)
Theorem init_normal_return
    (w : World) (interactive : bool)
    (model_path taxonomy_path taxonomy_base repository : string)
    (min_taxonomy : bool) (tr : Trace) (res : Res unit) :
  run (init interactive model_path taxonomy_path taxonomy_base repository
         min_taxonomy) w = (tr, res) ->
  res = Val tt ->
  (interactive = true /\
   tr = [EvExists (DEFAULT_CONFIG w) true;
         EvConfirm (found_config (DEFAULT_CONFIG w)) (inr false)]) \/
  (last (stdout tr) "" = completed /\
   exists cfg, written_configs tr = [(cfg, inr tt)]).
Proof.
  run_init interactive.
  all: first [ left; split; reflexivity
             | right; split; [reflexivity|];
               repeat match goal with u : unit |- _ => destruct u end;
               eexists; reflexivity ].
Qed.

Lemma init_normal_return_witness :
  let tr := fst (run (init false sample_model "taxonomy" "origin/main"
                        taxonomy_repo false) populated_world) in
  last (stdout tr) "" = completed /\
  exists cfg, written_configs tr = [(cfg, inr tt)].
Proof.
  intros tr.
  destruct (@init_normal_return populated_world false sample_model "taxonomy"
              "origin/main" taxonomy_repo false tr (Val tt) eq_refl eq_refl)
    as [[Hinteractive _]|Hdone].
  - discriminate Hinteractive.
  - exact Hdone.
Defined.

(** X10.  The model prompt is shown only in interactive mode, only after
    the directory of the [--model-path] option was found to exist, and
    with that option as its default. *)
Theorem init_model_prompt_guard
    (w : World) (interactive : bool)
    (model_path taxonomy_path taxonomy_base repository : string)
    (min_taxonomy : bool) (tr : Trace) (res : Res unit)
    (d : string) (r : exn + string) :
  run (init interactive model_path taxonomy_path taxonomy_base repository
         min_taxonomy) w = (tr, res) ->
  In ("Path to your model", d, r) (prompt_results tr) ->
  interactive = true /\
  d = model_path /\
  In (dirname w model_path, true) (exists_results tr).
Proof.
  run_init interactive.
  all: repeat split; cbn; auto.
Qed.

Lemma init_model_prompt_guard_witness :
  let tr := fst (run (init true sample_model "taxonomy" "origin/main"
                        taxonomy_repo false) returning_world) in
  In ("models", true) (exists_results tr).
Proof.
  intros tr.
  destruct (@init_model_prompt_guard returning_world true sample_model
              "taxonomy" "origin/main" taxonomy_repo false tr
              (snd (run (init true sample_model "taxonomy" "origin/main"
                           taxonomy_repo false) returning_world))
              sample_model (inr sample_model))
    as (_ & _ & Hfound).
  - reflexivity.
  - simpl. right. left. reflexivity.
  - exact Hfound.
Defined.

(** X11.  One taxonomy path runs through an invocation: every clone
    goes from the [--repository] option into the directory that was
    listed, on branch [main] with submodules, and every configuration
    written points at that same directory. *)
Theorem init_taxonomy_path_consistent
    (w : World) (interactive : bool)
    (model_path taxonomy_path taxonomy_base repository : string)
    (min_taxonomy : bool) (tr : Trace) (res : Res unit)
    (p : string) (r : exn + list string) :
  run (init interactive model_path taxonomy_path taxonomy_base repository
         min_taxonomy) w = (tr, res) ->
  In (p, r) (listdir_results tr) ->
  (forall c, In c (clone_calls tr) ->
     clone_url c = repository /\ clone_to_path c = p /\
     clone_branch c = "main" /\ clone_recurse_submodules c = true) /\
  (forall cfg r', In (cfg, r') (written_configs tr) ->
     generate_taxonomy_path (generate cfg) = p).
Proof.
  run_init interactive.
  all: split; intros; cbn in *; split_cases; invert_more;
    repeat split; reflexivity.
Qed.

Lemma init_taxonomy_path_consistent_witness :
  let tr := fst (run (init true sample_model "taxonomy" "origin/main"
                        taxonomy_repo false) empty_dir_world) in
  map clone_to_path (clone_calls tr) = ["/home/user/taxonomy"] /\
  Forall (fun written =>
            generate_taxonomy_path (generate (fst written))
            = "/home/user/taxonomy")
         (written_configs tr).
Proof.
  intros tr.
  destruct (@init_taxonomy_path_consistent empty_dir_world true sample_model
              "taxonomy" "origin/main" taxonomy_repo false tr
              (snd (run (init true sample_model "taxonomy" "origin/main"
                           taxonomy_repo false) empty_dir_world))
              "/home/user/taxonomy" (inr []))
    as [_ Hcfg].
  - reflexivity.
  - simpl. left. reflexivity.
  - split; [reflexivity|].
    apply Forall_forall. intros [cfg r'] Hin. exact (Hcfg cfg r' Hin).
Defined.

(** X12.  An exception out of a confirmation or a prompt (the user
    interrupts) leaves [init] as raised and no configuration is written;
    unless it is the model prompt that was interrupted, nothing was
    cloned either. *)
Theorem init_interrupted_at_question
    (w : World) (interactive : bool)
    (model_path taxonomy_path taxonomy_base repository : string)
    (min_taxonomy : bool) (tr : Trace) (res : Res unit)
    (q : string) (e : exn) :
  run (init interactive model_path taxonomy_path taxonomy_base repository
         min_taxonomy) w = (tr, res) ->
  In (q, inl e) (confirm_answers tr) \/
  (exists d, In (q, d, inl e) (prompt_results tr)) ->
  res = Raised e /\
  written_configs tr = [] /\
  (q <> "Path to your model" -> clone_calls tr = []).
Proof.
  run_init interactive.
  all: split; [reflexivity|split; [reflexivity|]].
  all: intros Hq; first [reflexivity | exfalso; apply Hq; reflexivity].
Qed.

Lemma init_interrupted_at_question_witness :
  let r := run (init true sample_model "taxonomy" "origin/main" taxonomy_repo
                  false) interrupting_world in
  snd r = Raised (OtherException "Abort" "") /\
  written_configs (fst r) = [] /\
  clone_calls (fst r) = [].
Proof.
  intros r.
  destruct (@init_interrupted_at_question interrupting_world true sample_model
              "taxonomy" "origin/main" taxonomy_repo false (fst r) (snd r)
              "Path to taxonomy repo" (OtherException "Abort" ""))
    as (Hres & Hcfg & Hclone).
  - reflexivity.
  - right. exists "taxonomy". simpl. left. reflexivity.
  - split; [exact Hres|]. split; [exact Hcfg|].
    apply Hclone. discriminate.
Defined.

(* ------------------------------------------------------------------ *)
(** ** Further properties of [diff] *)

Lemma diff_lists_changed_files_witness :
  stdout (fst (run (diff (Some sample_lab) None None None false)
                 (changed_world (inr tt))))
  = (changed_files ++ ["Taxonomy in /taxonomy/ is valid :)"])%list.
Proof.
  destruct (@diff_lists_changed_files (changed_world (inr tt))
              (Some sample_lab) None None None _ _ "taxonomy" "origin/main"
              changed_files eq_refl)
    as (verdict & Hout & _).
  - simpl. left. reflexivity.
  - reflexivity.
Defined.

(** X14.  In a non-quiet [diff], a validation that raises [SystemExit]
    or [YAMLError] is reported on the last line printed, and the command
    raises [SystemExit(1)]. *)
Theorem diff_validation_failure_reported
    (w : World) (ctx_obj : option Lab)
    (taxonomy_path taxonomy_base yaml_rules : option string)
    (tr : Trace) (res : Res unit) (c : validation_call) (e : exn) :
  run (diff ctx_obj taxonomy_path taxonomy_base yaml_rules false) w = (tr, res) ->
  In c (read_taxonomy_calls tr) ->
  val_result c = inl e ->
  is_SystemExit_or_YAMLError e = true ->
  res = Raised (SystemExit (ExitCode 1)) /\
  exists before, stdout tr = (before ++ [reading_failed e])%list.
Proof.
  run_diff ctx_obj.
  all: split; [reflexivity|]; fold_echoes.
  all: first [ now eexists [_] | now eexists ].
Qed.

Lemma diff_validation_failure_reported_witness :
  let r := run (diff (Some sample_lab) None None None false)
             (changed_world (inl (YAMLError "mapping values are not allowed here"))) in
  snd r = Raised (SystemExit (ExitCode 1)) /\
  exists before,
    stdout (fst r)
    = (before ++ ["Reading taxonomy failed with the following error: mapping values are not allowed here"])%list.
Proof.
  intros r.
  apply (@diff_validation_failure_reported
           (changed_world (inl (YAMLError "mapping values are not allowed here")))
           (Some sample_lab) None None None (fst r) (snd r)
           (mk_validation "instructlab" "taxonomy" "origin/main" None
              (inl (YAMLError "mapping values are not allowed here")))
           (YAMLError "mapping values are not allowed here")).
  - reflexivity.
  - simpl. left. reflexivity.
  - reflexivity.
  - reflexivity.
Defined.

(** X15.  In a non-quiet [diff], when [read_taxonomy] returns, the last
    line printed is the confirmation for the path that was validated and
    the command returns (status 0). *)
Theorem diff_success_confirmed
    (w : World) (ctx_obj : option Lab)
    (taxonomy_path taxonomy_base yaml_rules : option string)
    (tr : Trace) (res : Res unit) (c : validation_call) :
  run (diff ctx_obj taxonomy_path taxonomy_base yaml_rules false) w = (tr, res) ->
  In c (read_taxonomy_calls tr) ->
  val_result c = inr tt ->
  res = Val tt /\
  exit_status res = Some 0 /\
  exists before,
    stdout tr = (before ++ [taxonomy_is_valid (val_taxonomy c)])%list.
Proof.
  run_diff ctx_obj.
  all: split; [reflexivity|split; [reflexivity|]]; fold_echoes.
  all: first [ now eexists [_] | now eexists ].
Qed.

Lemma diff_success_confirmed_witness :
  let r := run (diff (Some sample_lab) None None None false)
             (changed_world (inr tt)) in
  snd r = Val tt /\ exit_status (snd r) = Some 0.
Proof.
  intros r.
  destruct (@diff_success_confirmed (changed_world (inr tt)) (Some sample_lab)
              None None None (fst r) (snd r)
              (mk_validation "instructlab" "taxonomy" "origin/main" None
                 (inr tt)))
    as (Hres & Hstatus & _).
  - reflexivity.
  - simpl. left. reflexivity.
  - reflexivity.
  - split; assumption.
Defined.

(** X16.  An exception of [get_taxonomy_diff] that is neither a
    [GitError] nor a [SystemExit] is not reported: it leaves [diff] as
    raised, nothing is printed and validation is not attempted. *)
Theorem diff_list_other_error_propagates
    (w : World) (ctx_obj : option Lab)
    (taxonomy_path taxonomy_base yaml_rules : option string)
    (tr : Trace) (res : Res unit) (p b : string) (e : exn) :
  run (diff ctx_obj taxonomy_path taxonomy_base yaml_rules false) w = (tr, res) ->
  In (p, b, inl e) (diff_list_calls tr) ->
  is_SystemExit_or_GitError e = false ->
  res = Raised e /\
  stdout tr = [] /\
  read_taxonomy_calls tr = [].
Proof.
  run_diff ctx_obj.
  all: repeat split; reflexivity.
Qed.

Lemma diff_list_other_error_propagates_witness :
  let r := run (diff (Some sample_lab) None None None false) not_a_repo_world in
  snd r = Raised (OtherException "TypeError" "expected str, bytes or os.PathLike")
  /\ stdout (fst r) = [] /\ read_taxonomy_calls (fst r) = [].
Proof.
  intros r.
  apply (@diff_list_other_error_propagates not_a_repo_world (Some sample_lab)
           None None None (fst r) (snd r) "taxonomy" "origin/main"
           (OtherException "TypeError" "expected str, bytes or os.PathLike")).
  - reflexivity.
  - simpl. left. reflexivity.
  - reflexivity.
Defined.

(** X17.  An exception of [read_taxonomy] outside [SystemExit] and
    [YAMLError] (a [GitError], say) is not reported, quiet or not: it
    leaves [diff] as raised and the validation call is the last thing
    that happened. *)
Theorem diff_validation_other_error_propagates
    (w : World) (ctx_obj : option Lab)
    (taxonomy_path taxonomy_base yaml_rules : option string) (quiet : bool)
    (tr : Trace) (res : Res unit) (c : validation_call) (e : exn) :
  run (diff ctx_obj taxonomy_path taxonomy_base yaml_rules quiet) w = (tr, res) ->
  In c (read_taxonomy_calls tr) ->
  val_result c = inl e ->
  is_SystemExit_or_YAMLError e = false ->
  res = Raised e /\
  exists before,
    tr = (before ++ [EvReadTaxonomy (val_logger c) (val_taxonomy c)
                       (val_taxonomy_base c) (val_yaml_rules c) (inl e)])%list.
Proof.
  destruct quiet; run_diff ctx_obj.
  all: split; [reflexivity|].
  all: match goal with
       | |- exists b, ?t = (b ++ [?x])%list =>
           first [ exists (removelast t); reflexivity
                 | eexists (_ :: _ :: _ :: _); reflexivity
                 | eexists (_ :: _ :: _); reflexivity ]
       end.
Qed.

Lemma diff_validation_other_error_propagates_witness :
  let r := run (diff (Some sample_lab) None None None false) bad_ref_world in
  snd r = Raised (GitError "bad revision 'origin/main'") /\
  stdout (fst r) = ["taxonomy"].
Proof.
  intros r.
  destruct (@diff_validation_other_error_propagates bad_ref_world
              (Some sample_lab) None None None false (fst r) (snd r)
              (mk_validation "instructlab" "taxonomy" "origin/main" None
                 (inl (GitError "bad revision 'origin/main'")))
              (GitError "bad revision 'origin/main'"))
    as [Hres _].
  - reflexivity.
  - simpl. left. reflexivity.
  - reflexivity.
  - reflexivity.
  - split; [exact Hres|reflexivity].
Defined.

(** X18.  Whatever [diff] validates, it validates the path and base in
    effect (the option when truthy, the loaded configuration's value
    otherwise) with the [--yaml-rules] option as given and the context's
    logger (the module logger without a context); the listing before it
    was asked about the same path and base. *)
Theorem diff_arguments_in_effect
    (w : World) (ctx_obj : option Lab)
    (taxonomy_path taxonomy_base yaml_rules : option string) (quiet : bool)
    (tr : Trace) (res : Res unit) (c : validation_call) :
  run (diff ctx_obj taxonomy_path taxonomy_base yaml_rules quiet) w = (tr, res) ->
  In c (read_taxonomy_calls tr) ->
  or_configured taxonomy_path generate_taxonomy_path ctx_obj
    = Some (val_taxonomy c) /\
  or_configured taxonomy_base generate_taxonomy_base ctx_obj
    = Some (val_taxonomy_base c) /\
  val_yaml_rules c = yaml_rules /\
  val_logger c
    = match ctx_obj with Some lab => logger lab | None => module_name end /\
  (forall p b r, In (p, b, r) (diff_list_calls tr) ->
     p = val_taxonomy c /\ b = val_taxonomy_base c) /\
  (forall p r, In (p, r) (isfile_results tr) -> p = val_taxonomy c).
Proof.
  destruct quiet; run_diff ctx_obj.
  all: repeat split; try reflexivity; intros; cbn [In] in *; split_cases;
    invert_more; try reflexivity.
Qed.

Lemma diff_arguments_in_effect_witness :
  let tr := fst (run (diff (Some sample_lab) (Some "/srv/taxonomy") None
                        (Some "rules.yaml") false) valid_world) in
  Forall (fun listed =>
            fst (fst listed) = "/srv/taxonomy" /\
            snd (fst listed) = "origin/main")
         (diff_list_calls tr).
Proof.
  intros tr.
  destruct (@diff_arguments_in_effect valid_world (Some sample_lab)
              (Some "/srv/taxonomy") None (Some "rules.yaml") false tr
              (snd (run (diff (Some sample_lab) (Some "/srv/taxonomy") None
                           (Some "rules.yaml") false) valid_world))
              (mk_validation "instructlab" "/srv/taxonomy" "origin/main"
                 (Some "rules.yaml") (inr tt)))
    as (_ & _ & _ & _ & Hlist & _).
  - reflexivity.
  - simpl. left. reflexivity.
  - apply Forall_forall. intros [[p b] r] Hin. exact (Hlist p b r Hin).
Defined.

(** X19.  No step of [diff] is retried: one invocation asks at most once
    whether the path is a file, computes at most one diff list,
    validates at most once and creates at most one logger. *)
Theorem diff_no_retries
    (w : World) (ctx_obj : option Lab)
    (taxonomy_path taxonomy_base yaml_rules : option string) (quiet : bool) :
  let tr := fst (run (diff ctx_obj taxonomy_path taxonomy_base yaml_rules
                        quiet) w) in
  (length (isfile_results tr) <= 1)%nat /\
  (length (diff_list_calls tr) <= 1)%nat /\
  (length (read_taxonomy_calls tr) <= 1)%nat /\
  (length (getLogger_calls tr) <= 1)%nat.
Proof.
  unfold_cmd; destruct quiet, ctx_obj as [lab|]; settle; repeat step;
    cbn [fst]; observe_more; cbn [length]; repeat split; repeat constructor.
Qed.

(** X20.  [ilab diff --quiet] is a faithful check: if [read_taxonomy]
    answers the same whatever happened before it, the quiet invocation
    ends exactly as the non-quiet one does, unless the non-quiet one
    fails to compute the diff list. *)
Theorem diff_quiet_agrees_with_listing
    (w : World) (ctx_obj : option Lab)
    (taxonomy_path taxonomy_base yaml_rules : option string) :
  (forall t t' lg p b y,
     read_taxonomy w t lg p b y = read_taxonomy w t' lg p b y) ->
  (forall p b e,
     ~ In (p, b, inl e)
         (diff_list_calls
            (fst (run (diff ctx_obj taxonomy_path taxonomy_base yaml_rules
                         false) w)))) ->
  snd (run (diff ctx_obj taxonomy_path taxonomy_base yaml_rules false) w)
  = snd (run (diff ctx_obj taxonomy_path taxonomy_base yaml_rules true) w).
Proof.
  intros Hsame. unfold_cmd.
  destruct ctx_obj as [lab|]; settle; repeat step; cbn [fst snd];
    intros Hlist; try reflexivity;
    try (exfalso; eapply Hlist; unfold diff_list_calls; cbn; left; reflexivity);
    repeat match goal with
           | H1 : read_taxonomy w ?t ?a ?b ?c ?d = _,
             H2 : read_taxonomy w ?t' ?a ?b ?c ?d = _ |- _ =>
               rewrite (Hsame t t') in H1; rewrite H1 in H2; clear H1
           end;
    try discriminate;
    repeat match goal with
           | H : inl _ = inl _ |- _ => inversion H; subst; clear H
           end; try congruence.
Qed.

Lemma diff_quiet_agrees_with_listing_witness :
  snd (run (diff (Some sample_lab) None None None false) invalid_world)
  = snd (run (diff (Some sample_lab) None None None true) invalid_world).
Proof.
  apply (@diff_quiet_agrees_with_listing invalid_world (Some sample_lab)
           None None None).
  - intros t t' lg p b y. reflexivity.
  - intros p b e Hin. simpl in Hin. destruct Hin as [Hin|[]].
    discriminate Hin.
Defined.

(** X21.  With both options supplied [diff] does not need a loaded
    context: it takes the module logger and goes on to the file system
    or to the validation with the options as given. *)
Theorem diff_without_context
    (w : World) (taxonomy_path taxonomy_base yaml_rules : option string)
    (quiet : bool) (tr : Trace) (res : Res unit) :
  run (diff None taxonomy_path taxonomy_base yaml_rules quiet) w = (tr, res) ->
  py_not taxonomy_path = false ->
  py_not taxonomy_base = false ->
  getLogger_calls tr = [module_name] /\
  (if quiet
   then exists r,
          tr = [EvGetLogger module_name;
                EvReadTaxonomy module_name (str_of taxonomy_path)
                  (str_of taxonomy_base) yaml_rules r]
   else exists r rest,
          tr = EvGetLogger module_name
               :: EvIsFile (str_of taxonomy_path) r :: rest).
Proof.
  destruct quiet; unfold_cmd; settle; repeat step; observe_more;
    try congruence; (split; [reflexivity|]); eauto.
Qed.

Lemma diff_without_context_witness :
  getLogger_calls
    (fst (run (diff None (Some "taxonomy") (Some "origin/main") None false)
            valid_world))
  = ["instructlab.lab"].
Proof.
  apply (@diff_without_context valid_world (Some "taxonomy")
           (Some "origin/main") None false _
           (snd (run (diff None (Some "taxonomy") (Some "origin/main") None
                        false) valid_world))).
  - reflexivity.
  - reflexivity.
  - reflexivity.
Defined.

(* ------------------------------------------------------------------ *)
(** ** Properties of [sysinfo] *)

Lemma print_items_printed (items : list (string * string)) (t : list SysEvent) :
  printed (print_items items t)
  = (printed t ++ map (fun kv => sysinfo_line (fst kv) (snd kv)) items)%list.
Proof.
  revert t. induction items as [|[key value] rest IH]; intros t; cbn.
  - now rewrite app_nil_r.
  - rewrite IH. unfold printed. rewrite flat_map_app. cbn.
    now rewrite <- app_assoc.
Qed.

(** X22.  [sysinfo] prints one [key: value] line per item of the probe,
    in the probe's order, and returns; if the probe raises, nothing is
    printed and the exception leaves the command. *)
Theorem sysinfo_prints_probe_in_order :
  (forall items,
     printed (fst (sysinfo (inr items)))
     = map (fun kv => sysinfo_line (fst kv) (snd kv)) items /\
     length (printed (fst (sysinfo (inr items)))) = length items /\
     snd (sysinfo (inr items)) = Val tt) /\
  (forall e,
     printed (fst (sysinfo (inl e))) = [] /\
     snd (sysinfo (inl e)) = Raised e).
Proof.
  split.
  - intros items. cbn [sysinfo fst snd]. rewrite print_items_printed. cbn.
    split; [reflexivity|]. split; [apply length_map|reflexivity].
  - intros e. split; reflexivity.
Qed.
